(** * Kampung Spirit dashboard (D01.py): a shallow embedding

    The script loads one worksheet of a workbook into a pandas DataFrame,
    geocodes every postal code through the OneMap search endpoint, filters
    the rows on a date range and renders cards, charts and a point map from
    the filtered frame inside one Dash callback.

    What the script delegates to libraries and services is taken as a
    parameter of the model (Section variables): the workbook reader, the
    HTTP endpoint, [str], [float], the date parser of pandas and what pandas
    and Python do with the sum of a column that is not numeric.  What the
    script itself does is written out: which columns are read and in which
    order, where an exception can be raised, which requests are sent, and
    what is computed from the rows.

    Floats are exact rationals ([Q]) with the two infinities and NaN; the
    rounding of binary floating point, and its overflow to an infinity, are
    outside the model.  Integers of an int64 column wrap around at 64 bits
    as numpy's do. *)

From Stdlib Require Import QArith Qround ZArith Lia.
From stdpp Require Import gmap strings list fin_maps pretty.

Local Open Scope string_scope.
Local Open Scope Z_scope.

(** ** Exceptions and results *)

Inductive exn : Type :=
| KeyError (key : string)
| ValueError (msg : string)
| TypeError
| IndexError
| ZeroDivisionError
| RequestException (msg : string).

Inductive result (A : Type) : Type :=
| Ok (a : A)
| Raise (e : exn).
Arguments Ok {A} a.
Arguments Raise {A} e.

Definition rbind {A B} (r : result A) (k : A -> result B) : result B :=
  match r with
  | Ok a => k a
  | Raise e => Raise e
  end.

(** ** The callback's effect: requests sent to the geocoding service

    A computation threads the list of URLs requested so far, oldest first.
    The list survives an exception: the requests were sent. *)

Definition Net (A : Type) : Type := list string -> result A * list string.

Definition ret {A} (a : A) : Net A := fun log => (Ok a, log).

Definition raise {A} (e : exn) : Net A := fun log => (Raise e, log).

Definition bind {A B} (m : Net A) (k : A -> Net B) : Net B :=
  fun log =>
    match m log with
    | (Ok a, log') => k a log'
    | (Raise e, log') => (Raise e, log')
    end.

Definition lift {A} (r : result A) : Net A := fun log => (r, log).

Declare Scope net_scope.
Delimit Scope net_scope with net.
Notation "x <- m ;; k" := (bind m (fun x => k))
  (at level 100, m at next level, right associativity) : net_scope.

Declare Scope result_scope.
Delimit Scope result_scope with res.
Notation "x <- m ;; k" := (rbind m (fun x => k))
  (at level 100, m at next level, right associativity) : result_scope.

(** [Series.apply(f)]: [f] on every element, in order; the first exception
    ends the traversal. *)
Fixpoint mapM {A B} (f : A -> Net B) (l : list A) : Net (list B) :=
  match l with
  | [] => ret []
  | x :: xs => (y <- f x ;; ys <- mapM f xs ;; ret (y :: ys))%net
  end.

(** ** Data model: the record set *)

(** A Python float: a finite number, an infinity or NaN. *)
Inductive xfloat : Type :=
| Fin (q : Q)
| Inf (negative : bool)
| NaN.

(** A spreadsheet cell as pandas holds it.  [CNull] stands for every
    null-like marker: a blank cell, NaN, None and NaT. *)
Inductive cell : Type :=
| CInt (z : Z)            (* an integer *)
| CNum (q : Q)            (* a finite float *)
| CInf (negative : bool)  (* an infinite float *)
| CStr (s : string)
| CDate (t : Z)           (* a timestamp *)
| CNull.

(** The dtype of a column: int64, float64 ([DNumeric]), datetime64 without
    and with a time zone, and [DObject] for everything else (text, mixed). *)
Inductive dtype : Type := DInt64 | DNumeric | DObject | DDatetime | DDatetimeTZ.

(** One row per submission; a field missing from a row is a blank cell. *)
Record DataFrame : Type := mkDataFrame {
  columns : list (string * dtype);
  rows : list (gmap string cell)
}.

Definition cell_at (col : string) (r : gmap string cell) : cell :=
  default CNull (r !! col).

Definition has_column (df : DataFrame) (col : string) : bool :=
  bool_decide (col ∈ (columns df).*1).

(** The dtype a frame records for a column: that of its first entry. *)
Fixpoint dtype_of (col : string) (cs : list (string * dtype)) : option dtype :=
  match cs with
  | [] => None
  | (c, d) :: cs' => if String.eqb c col then Some d else dtype_of col cs'
  end.

(** [df[col].dtype] *)
Definition dtype_at (df : DataFrame) (col : string) : dtype :=
  default DObject (dtype_of col (columns df)).

(** The values of the date column of a frame. *)
Definition date_column (df : DataFrame) : list cell :=
  map (cell_at "Event Date") (rows df).

(** [df[col]] *)
Definition getitem (df : DataFrame) (col : string) : result (list cell) :=
  if has_column df col then Ok (map (cell_at col) (rows df))
  else Raise (KeyError col).

Fixpoint set_dtype (col : string) (dt : dtype) (cs : list (string * dtype))
  : list (string * dtype) :=
  match cs with
  | [] => [(col, dt)]
  | (c, d) :: cs' =>
      if String.eqb c col then (c, dt) :: cs' else (c, d) :: set_dtype col dt cs'
  end.

(** [df[col] = values]: an existing column is replaced in place, a new one
    is appended; a length mismatch is a ValueError. *)
Definition setitem (df : DataFrame) (col : string) (dt : dtype)
    (values : list cell) : result DataFrame :=
  if Nat.eqb (length values) (length (rows df)) then
    Ok {| columns := set_dtype col dt (columns df);
          rows := zip_with (fun r v => <[col := v]> r) (rows df) values |}
  else Raise (ValueError "Length of values does not match length of index").

(** [df[mask]] with a boolean mask. *)
Fixpoint select {A} (l : list A) (mask : list bool) : list A :=
  match l, mask with
  | x :: l', b :: mask' => if b then x :: select l' mask' else select l' mask'
  | _, _ => []
  end.

Definition boolean_index (df : DataFrame) (mask : list bool) : DataFrame :=
  {| columns := columns df; rows := select (rows df) mask |}.

(** ** Column operations of pandas used by the script *)

Local Open Scope Q_scope.

(** Arithmetic of floats. *)
Definition fadd (a b : xfloat) : xfloat :=
  match a, b with
  | NaN, _ | _, NaN => NaN
  | Fin x, Fin y => Fin (x + y)
  | Inf s, Fin _ | Fin _, Inf s => Inf s
  | Inf s, Inf t => if Bool.eqb s t then Inf s else NaN
  end.

Definition fneg (a : xfloat) : xfloat :=
  match a with
  | Fin x => Fin (- x)
  | Inf s => Inf (negb s)
  | NaN => NaN
  end.

Definition fsub (a b : xfloat) : xfloat := fadd a (fneg b).

(** A float times, and over, a finite number that is not 0. *)
Definition fmul (a : xfloat) (b : Q) : xfloat :=
  match a with
  | Fin x => Fin (x * b)
  | Inf s => Inf (xorb s (Qle_bool b 0))
  | NaN => NaN
  end.

Definition fdiv (a : xfloat) (b : Q) : xfloat :=
  match a with
  | Fin x => Fin (x / b)
  | Inf s => Inf (xorb s (Qle_bool b 0))
  | NaN => NaN
  end.

(** A float as the cell of a column: NaN is the null marker. *)
Definition cell_of_float (x : xfloat) : cell :=
  match x with
  | Fin q => CNum q
  | Inf s => CInf s
  | NaN => CNull
  end.

(** The signed 64-bit integer a result is reduced to. *)
Definition wrap64 (z : Z) : Z := ((z + 2 ^ 63) mod 2 ^ 64 - 2 ^ 63)%Z.

(** What [Series.sum()] returns: an int64 for an int64 column, a float64 for
    a float64 column, and some Python object for any other column. *)
Inductive total : Type :=
| TInt (z : Z)
| TFloat (x : xfloat)
| TObject (o : cell).

(** [Series.sum()] of an int64 column: the integers are added in 64 bits.
    Such a column holds integers only; the other cases cannot occur. *)
Fixpoint int_sum_from (acc : Z) (l : list cell) : result Z :=
  match l with
  | [] => Ok acc
  | CInt z :: l' => int_sum_from (wrap64 (acc + z)) l'
  | CNull :: l' => int_sum_from acc l'
  | _ :: _ => Raise TypeError
  end.

(** [Series.sum()] of a float64 column: nulls are skipped, and the sum of
    nothing is 0.  Such a column holds floats and nulls only. *)
Fixpoint float_sum_from (acc : xfloat) (l : list cell) : result xfloat :=
  match l with
  | [] => Ok acc
  | CNum q :: l' => float_sum_from (fadd acc (Fin q)) l'
  | CInf s :: l' => float_sum_from (fadd acc (Inf s)) l'
  | CInt z :: l' => float_sum_from (fadd acc (Fin (inject_Z z))) l'
  | CNull :: l' => float_sum_from acc l'
  | CStr _ :: _ => Raise TypeError
  | CDate _ :: _ => Raise TypeError
  end.

Definition notna (c : cell) : bool :=
  match c with
  | CNull => false
  | _ => true
  end.

(** [Series.count()]: the number of non-null values. *)
Definition series_count (l : list cell) : Z :=
  Z.of_nat (length (List.filter notna l)).

(** The mean of the numbers of a column, computed in floats (an int64
    column does not wrap here), and NaN when it has none. *)
Definition numbers (l : list cell) : list xfloat :=
  omap (fun c => match c with
                 | CInt z => Some (Fin (inject_Z z))
                 | CNum q => Some (Fin q)
                 | CInf s => Some (Inf s)
                 | _ => None
                 end) l.

Definition series_mean (l : list cell) : xfloat :=
  match numbers l with
  | [] => NaN
  | xs => fdiv (fold_left fadd xs (Fin 0)) (inject_Z (Z.of_nat (length xs)))
  end.

(** [df.mean(numeric_only=True)]: one entry per column of a numeric dtype. *)
Definition mean_numeric_only (df : DataFrame) : list (string * xfloat) :=
  omap (fun '(c, d) =>
          match d with
          | DInt64 | DNumeric => Some (c, series_mean (map (cell_at c) (rows df)))
          | _ => None
          end) (columns df).

(** [averages[key]] *)
Fixpoint series_get (s : list (string * xfloat)) (key : string)
  : result xfloat :=
  match s with
  | [] => Raise (KeyError key)
  | (k, v) :: s' => if String.eqb k key then Ok v else series_get s' key
  end.

(** [a / b] has no value at [b = 0] (ZeroDivisionError on Python numbers,
    nan or inf with a warning on numpy scalars); the model raises there, so
    that reaching a division by zero is observable. *)
Definition truediv (a : xfloat) (b : Q) : result xfloat :=
  if Qeq_bool b 0 then Raise ZeroDivisionError else Ok (fdiv a b).

(** [series >= ts] and [series <= ts] on a datetime column, value by value:
    a comparison with NaT is False. *)
Definition ge_timestamp (ts : Z) (c : cell) : bool :=
  match c with
  | CDate t => (ts <=? t)%Z
  | _ => false
  end.

Definition le_timestamp (ts : Z) (c : cell) : bool :=
  match c with
  | CDate t => (t <=? ts)%Z
  | _ => false
  end.

(** [series >= ts] or [series <= ts] as a whole.  A column without time zone
    is compared with a timestamp without one, a column with a time zone with
    a timestamp that has one; the other pairings are a TypeError.  (The
    script compares the column it has just converted, so no other dtype
    reaches the comparison.) *)
Definition compare_timestamp (dt : dtype) (op : Z -> cell -> bool)
    (col : list cell) (ts : Z * bool) : result (list bool) :=
  match dt, ts.2 with
  | DDatetime, false => Ok (map (op ts.1) col)
  | DDatetimeTZ, true => Ok (map (op ts.1) col)
  | _, _ => Raise TypeError
  end.

(** [mask1 & mask2] *)
Definition mask_and (m1 m2 : list bool) : list bool := zip_with andb m1 m2.

(** ** What the callback hands to the page *)

(** The text of a card: a value through an f-string.  The formatting itself
    belongs to Python; the model keeps the value that is formatted. *)
Inductive text : Type :=
| Fmt (v : total)                       (* f"{v}" *)
| Fmt2f (v : xfloat) (suffix : string). (* f"{v:.2f}" ++ suffix *)

Record Card : Type := mkCard { header : string; body : text }.

Inductive Figure : Type :=
| Histogram (x : list cell) (nbins : Z) (title : string)
| Pie (names : list cell) (title : string).

(** A GeoJSON point feature: [coordinates] is the pair [lon, lat]. *)
Record Feature : Type := mkFeature { coordinates : cell * cell }.

Record Outputs : Type := mkOutputs {
  attendance_row : list Card;
  averages_row : list Card;
  age_fig : Figure;
  gender_fig : Figure;
  race_fig : Figure;
  neighbors_fig : Figure;
  better_know_fig : Figure;
  event_rating_fig : Figure;
  net_prom_fig : Figure;
  marketing_fig : Figure;
  heatmap_layer : list Feature;
  column_options : list (string * string);
  data_table : string
}.

(** [px.histogram(df, x=col, ...)] and [px.pie(df, names=col, ...)] refuse a
    column the frame does not have. *)
Definition px_column (df : DataFrame) (col : string) : result (list cell) :=
  match getitem df col with
  | Ok l => Ok l
  | Raise _ => Raise (ValueError col)
  end.

Definition px_histogram (df : DataFrame) (x : string) (nbins : Z)
    (title : string) : result Figure :=
  (l <- px_column df x ;; Ok (Histogram l nbins title))%res.

Definition px_pie (df : DataFrame) (names : string) (title : string)
  : result Figure :=
  (l <- px_column df names ;; Ok (Pie l title))%res.

(** Python truthiness of a callback argument that is a string or None. *)
Definition truthy (s : option string) : bool :=
  match s with
  | Some s => negb (String.eqb s "")
  | None => false
  end.

(** A response of the search endpoint, as far as the script reads it. *)
Record GeoResult : Type := mkGeoResult { LATITUDE : string; LONGITUDE : string }.
Record Response : Type := mkResponse { found : Z; results : list GeoResult }.

Definition search_url (postal_code : string) : string :=
  "https://www.onemap.gov.sg/api/common/elastic/search?searchVal="
    ++ postal_code ++ "&returnGeom=Y&getAddrDetails=N".

(** A coordinate as the cell of its column: None and NaN are both null. *)
Definition coord_cell (c : option xfloat) : cell :=
  match c with
  | Some x => cell_of_float x
  | None => CNull
  end.

(** The dtype pandas gives to a new column of floats and Nones. *)
Definition coord_dtype (l : list (option xfloat)) : dtype :=
  if existsb (fun c => bool_decide (is_Some c)) l then DNumeric else DObject.

Section Model.

(** [pd.read_excel(excel_file, sheet_name=...)] *)
Variable read_excel : string -> result DataFrame.
(** [requests.get(url).json()] *)
Variable requests_get_json : string -> result Response.
(** [str(postal_code)] *)
Variable py_str : cell -> string.
(** [float(s)] *)
Variable py_float : string -> result xfloat.
(** [pd.to_datetime(s)] on a selected date: the instant it denotes, if it can
    be parsed, and whether it carries a UTC offset. *)
Variable parse_datetime : string -> option Z.
Variable tz_aware : string -> bool.
(** [pd.to_datetime(column, errors='coerce')] on a value that is neither a
    timestamp nor null, read as pandas reads it in its column (one format is
    inferred for the whole column), and whether the converted column has a
    time zone. *)
Variable datetime_in_column : list cell -> cell -> option Z.
Variable column_tz_aware : list cell -> bool.
(** [Series.sum()] of a column that is not numeric, and Python's
    [((n - total) / n) * 100] on such a sum: what they return when they
    return, a TypeError otherwise. *)
Variable object_sum : list cell -> option cell.
Variable object_attrition : Z -> cell -> option xfloat.

Definition http_get_json (url : string) : Net Response :=
  fun log => (requests_get_json url, (log ++ [url])%list).

(** D01.py, lines 16-25. *)
Definition get_lat_lon (postal_code : cell)
  : Net (option xfloat * option xfloat) :=
  (let postal_code := py_str postal_code in
   let url := search_url postal_code in
   response <- http_get_json url ;;
   if (found response >? 0)%Z then
     match results response with
     | [] => raise IndexError
     | r :: _ =>
         let lat := LATITUDE r in
         let lon := LONGITUDE r in
         lat <- lift (py_float lat) ;;
         lon <- lift (py_float lon) ;;
         ret (Some lat, Some lon)
     end
   else ret (None, None))%net.

(** [pd.to_datetime(column, errors='coerce')], value by value: a timestamp
    and a null stay, any other value goes through the parser, and what the
    parser cannot read becomes NaT instead of an error. *)
Definition to_datetime_coerce (column : list cell) (c : cell) : cell :=
  match c with
  | CDate t => CDate t
  | CNull => CNull
  | _ => match datetime_in_column column c with
         | Some t => CDate t
         | None => CNull
         end
  end.

(** The dtype of the converted column: a datetime column keeps its own. *)
Definition datetime_dtype (dt : dtype) (column : list cell) : dtype :=
  match dt with
  | DDatetime => DDatetime
  | DDatetimeTZ => DDatetimeTZ
  | _ => if column_tz_aware column then DDatetimeTZ else DDatetime
  end.

(** [pd.to_datetime(s)] on a string: an unparsable one is an error. *)
Definition to_datetime (s : string) : result (Z * bool) :=
  match parse_datetime s with
  | Some t => Ok (t, tz_aware s)
  | None => Raise (ValueError s)
  end.

(** D01.py, lines 28-35.  The right-hand side of line 34 is unpacked into
    exactly two columns; the transposed [zip] of no row yields nothing to
    unpack. *)
Definition load_sheet (sheet_name : string) : Net DataFrame :=
  (df <- lift (read_excel sheet_name) ;;
   dates <- lift (getitem df "Event Date") ;;
   df <- lift (setitem df "Event Date"
                 (datetime_dtype (dtype_at df "Event Date") dates)
                 (map (to_datetime_coerce dates) dates)) ;;
   postal <- lift (getitem df "Postal Code") ;;
   pairs <- mapM get_lat_lon postal ;;
   match pairs with
   | [] => raise (ValueError "not enough values to unpack (expected 2, got 0)")
   | _ =>
       let lats := map fst pairs in
       let lons := map snd pairs in
       df <- lift (setitem df "Latitude" (coord_dtype lats) (map coord_cell lats)) ;;
       df <- lift (setitem df "Longitude" (coord_dtype lons) (map coord_cell lons)) ;;
       ret df
   end)%net.

(** D01.py, lines 141-145. *)
Definition date_filter (start_date end_date : option string) (df : DataFrame)
  : result DataFrame :=
  match start_date, end_date with
  | Some s, Some e =>
      if truthy start_date && truthy end_date then
        (start_date <- to_datetime s ;;
         end_date <- to_datetime e ;;
         dates <- getitem df "Event Date" ;;
         df <- setitem df "Event Date"
                 (datetime_dtype (dtype_at df "Event Date") dates)
                 (map (to_datetime_coerce dates) dates) ;;
         d1 <- getitem df "Event Date" ;;
         m1 <- compare_timestamp (dtype_at df "Event Date") ge_timestamp d1
                 start_date ;;
         d2 <- getitem df "Event Date" ;;
         m2 <- compare_timestamp (dtype_at df "Event Date") le_timestamp d2
                 end_date ;;
         Ok (boolean_index df (mask_and m1 m2)))%res
      else Ok df
  | _, _ => Ok df
  end.

(** [Series.sum()] by the dtype of the column. *)
Definition series_sum (dt : dtype) (l : list cell) : result total :=
  match dt with
  | DInt64 => (z <- int_sum_from 0 l ;; Ok (TInt z))%res
  | DNumeric => (x <- float_sum_from (Fin 0) l ;; Ok (TFloat x))%res
  | _ => match object_sum l with
         | Some o => Ok (TObject o)
         | None => Raise TypeError
         end
  end.

(** [((total_registrants - total_attendance) / total_registrants) * 100]:
    the difference of two int64 is an int64, the rest is in floats. *)
Definition attrition (total_registrants : Z) (total_attendance : total)
  : result xfloat :=
  match total_attendance with
  | TInt t =>
      (d <- truediv (Fin (inject_Z (wrap64 (total_registrants - t))))
                    (inject_Z total_registrants) ;;
       Ok (fmul d 100))%res
  | TFloat x =>
      (d <- truediv (fsub (Fin (inject_Z total_registrants)) x)
                    (inject_Z total_registrants) ;;
       Ok (fmul d 100))%res
  | TObject o =>
      match object_attrition total_registrants o with
      | Some r => Ok r
      | None => Raise TypeError
      end
  end.

(** D01.py, lines 150-152. *)
Definition attendance_stats (df : DataFrame) : result (total * Z * xfloat) :=
  (a <- getitem df "Attendance" ;;
   total_attendance <- series_sum (dtype_at df "Attendance") a ;;
   a <- getitem df "Attendance" ;;
   let total_registrants := series_count a in
   attrition_rate <-
     (if (total_registrants >? 0)%Z
      then attrition total_registrants total_attendance
      else Ok (Fin 0)) ;;
   Ok (total_attendance, total_registrants, attrition_rate))%res.

(** D01.py, lines 147-193: everything the callback builds from the
    filtered frame, in the order the script evaluates it. *)
Definition render (df : DataFrame) : result Outputs :=
  (let averages := mean_numeric_only df in
   stats <- attendance_stats df ;;
   let '(total_attendance, _, attrition_rate) := stats in
   let attendance_row :=
     [ mkCard "🎟️ Total Attendance" (Fmt total_attendance);
       mkCard "📉 Attrition Rate" (Fmt2f attrition_rate "%") ] in
   avg_age <- series_get averages "Age" ;;
   avg_met <- series_get averages "How many new neighbours met?" ;;
   avg_know <- series_get averages "How much better do you know your neighbours?" ;;
   avg_rating <- series_get averages "Rating of the whole event." ;;
   avg_promote <- series_get averages "How likely are you to promote this event to your friend?" ;;
   let averages_row :=
     [ mkCard "📊 Avg Age" (Fmt2f avg_age "");
       mkCard "🤝 Avg Neighbors Met" (Fmt2f avg_met "");
       mkCard "🧑‍🤝‍🧑 Avg Knowledge" (Fmt2f avg_know "");
       mkCard "⭐ Avg Rating" (Fmt2f avg_rating "");
       mkCard "📈 Net Promoter" (Fmt2f avg_promote "") ] in
   age_fig <- px_histogram df "Age" 10 "Age Distribution" ;;
   gender_fig <- px_pie df "Gender" "Gender Distribution" ;;
   race_fig <- px_pie df "Race" "Racial Distribution" ;;
   neighbors_fig <- px_histogram df "How many new neighbours met?" 10 "New Neighbors Met" ;;
   better_know_fig <- px_histogram df "How much better do you know your neighbours?" 5 "Better Knowledge of Neighbors" ;;
   event_rating_fig <- px_histogram df "Rating of the whole event." 10 "Event Rating" ;;
   net_prom_fig <- px_histogram df "How likely are you to promote this event to your friend?" 10 "Net Promoter Score" ;;
   marketing_fig <- px_pie df "Marketing" "How did you find out about our event?" ;;
   lats <- getitem df "Latitude" ;;
   lons <- getitem df "Longitude" ;;
   let heatmap_layer :=
     map (fun '(lat, lon) => mkFeature (lon, lat)) (zip lats lons) in
   let column_options := map (fun col => (col, col)) (columns df).*1 in
   Ok (mkOutputs attendance_row averages_row age_fig gender_fig race_fig
         neighbors_fig better_know_fig event_rating_fig net_prom_fig
         marketing_fig heatmap_layer column_options ""))%res.

(** D01.py, lines 137-145: the record set the callback renders. *)
Definition load_and_filter (sheet_name : string)
    (start_date end_date : option string) : Net DataFrame :=
  (df <- load_sheet sheet_name ;;
   lift (date_filter start_date end_date df))%net.

(** D01.py, lines 137-193. *)
Definition update_dashboard (sheet_name : string)
    (start_date end_date : option string) : Net Outputs :=
  (df <- load_and_filter sheet_name start_date end_date ;;
   lift (render df))%net.

(** D01.py, lines 115-136: the callback is registered on three inputs, the
    sheet selector's value and the two ends of the date picker.  [Page] is
    what the browser holds of the components the user can change. *)
Record Page : Type := mkPage {
  sheet_selector_value : string;
  date_filter_start_date : option string;
  date_filter_end_date : option string;
  data_filter_value : list string
}.

Definition callback (page : Page) : Net Outputs :=
  update_dashboard (sheet_selector_value page)
    (date_filter_start_date page) (date_filter_end_date page).

(** *** Vocabulary of the statements about the script *)

(** The request the script sends for a row of the sheet. *)
Definition request_of (r : gmap string cell) : string :=
  search_url (py_str (cell_at "Postal Code" r)).

(** What a lookup returns; it does not depend on the requests sent before. *)
Definition geocode (postal_code : cell)
  : result (option xfloat * option xfloat) :=
  (get_lat_lon postal_code []).1.

(** A row of the sheet after [load_sheet], given the date column of the
    sheet and the pair its lookup returned. *)
Definition loaded_row (dates : list cell) (r : gmap string cell)
    (p : option xfloat * option xfloat) : gmap string cell :=
  <["Longitude" := coord_cell p.2]>
    (<["Latitude" := coord_cell p.1]>
       (<["Event Date" := to_datetime_coerce dates (cell_at "Event Date" r)]> r)).

(** The coordinates a row carries after [load_sheet] are those of the first
    result, as [float] read them, when the service found something, and
    absent otherwise. *)
Definition coordinates_as_found (r0 r : gmap string cell) : Prop :=
  exists resp,
    requests_get_json (request_of r0) = Ok resp /\
    if (found resp >? 0)%Z then
      exists g rest lat lon,
        results resp = g :: rest /\
        py_float (LATITUDE g) = Ok lat /\ py_float (LONGITUDE g) = Ok lon /\
        cell_at "Latitude" r = cell_of_float lat /\
        cell_at "Longitude" r = cell_of_float lon
    else cell_at "Latitude" r = CNull /\ cell_at "Longitude" r = CNull.

(** Whether the date column of a frame has a time zone once converted. *)
Definition dates_aware (df : DataFrame) : bool :=
  match datetime_dtype (dtype_at df "Event Date") (date_column df) with
  | DDatetimeTZ => true
  | _ => false
  end.

(** A frame after its date column is converted (lines 32 and 144). *)
Definition converted (df : DataFrame) : DataFrame :=
  {| columns := set_dtype "Event Date"
                  (datetime_dtype (dtype_at df "Event Date") (date_column df))
                  (columns df);
     rows := map (fun r => <["Event Date" :=
                               to_datetime_coerce (date_column df)
                                 (cell_at "Event Date" r)]> r)
                 (rows df) |}.

(** The cell of a date column cannot be read as a date. *)
Definition unparsable (column : list cell) (c : cell) : Prop :=
  match c with
  | CDate _ | CNull => False
  | _ => datetime_in_column column c = None
  end.

End Model.

(** ** What the statements below compare the script with *)

(** The attendance figures of a record set, computed by hand from its rows:
    the sum of the attendance numbers, the number of rows whose attendance is
    filled in, and the share of registrants who did not attend, in percent. *)
Definition attendance_of (r : gmap string cell) : cell := cell_at "Attendance" r.

Definition number_of (c : cell) : option xfloat :=
  match c with
  | CInt z => Some (Fin (inject_Z z))
  | CNum q => Some (Fin q)
  | CInf s => Some (Inf s)
  | _ => None
  end.

Fixpoint hand_total (l : list (gmap string cell)) : xfloat :=
  match l with
  | [] => Fin 0
  | r :: l' =>
      match number_of (attendance_of r) with
      | Some x => fadd x (hand_total l')
      | None => hand_total l'
      end
  end.

(** The same sum for a column of integers, as an integer. *)
Fixpoint hand_int_total (l : list (gmap string cell)) : Z :=
  match l with
  | [] => 0%Z
  | r :: l' =>
      match attendance_of r with
      | CInt z => (z + hand_int_total l')%Z
      | _ => hand_int_total l'
      end
  end.

Fixpoint hand_registrants (l : list (gmap string cell)) : Z :=
  match l with
  | [] => 0%Z
  | r :: l' =>
      match attendance_of r with
      | CNull => hand_registrants l'
      | _ => (1 + hand_registrants l')%Z
      end
  end.

(** The attrition rate of [registrants], of whom [registrants - shortfall]
    attended: 0 when nobody registered. *)
Definition hand_rate (registrants : Z) (shortfall : xfloat) : xfloat :=
  if (registrants =? 0)%Z then Fin 0
  else fmul (fdiv shortfall (inject_Z registrants)) 100.

Definition hand_attrition (l : list (gmap string cell)) : xfloat :=
  hand_rate (hand_registrants l)
    (fsub (Fin (inject_Z (hand_registrants l))) (hand_total l)).

(** Two floats are the same number. *)
Definition same_number (a b : xfloat) : Prop :=
  match a, b with
  | Fin x, Fin y => x == y
  | Inf s, Inf t => s = t
  | NaN, NaN => True
  | _, _ => False
  end.

(** An integer is a signed 64-bit integer. *)
Definition int64 (z : Z) : Prop := (- 2 ^ 63 <= z < 2 ^ 63)%Z.

(** The sum of a numeric column that holds no number. *)
Definition zero_of (dt : dtype) : option total :=
  match dt with
  | DInt64 => Some (TInt 0)
  | DNumeric => Some (TFloat (Fin 0))
  | _ => None
  end.

(** A row's event date lies in the closed range [start, end]. *)
Definition in_range (s e : Z) (r : gmap string cell) : bool :=
  match cell_at "Event Date" r with
  | CDate t => (s <=? t)%Z && (t <=? e)%Z
  | _ => false
  end.

(** ** A workbook, a geocoding service and the library functions to run
    the script on *)

Module Fixture.

Definition survey_columns : list (string * dtype) :=
  [ ("ID", DNumeric); ("Event Date", DObject); ("Postal Code", DObject);
    ("Attendance", DNumeric); ("Age", DNumeric); ("Gender", DObject);
    ("Race", DObject); ("Marketing", DObject);
    ("How many new neighbours met?", DNumeric);
    ("How much better do you know your neighbours?", DNumeric);
    ("Rating of the whole event.", DNumeric);
    ("How likely are you to promote this event to your friend?", DNumeric) ].

Definition num (z : Z) : cell := CNum (inject_Z z).

Definition submission (id : Z) (date postal attendance : cell) (age : Z)
    (gender race marketing : string) (met know rating promote : Z)
  : gmap string cell :=
  list_to_map
    [ ("ID", num id); ("Event Date", date); ("Postal Code", postal);
      ("Attendance", attendance); ("Age", num age); ("Gender", CStr gender);
      ("Race", CStr race); ("Marketing", CStr marketing);
      ("How many new neighbours met?", num met);
      ("How much better do you know your neighbours?", num know);
      ("Rating of the whole event.", num rating);
      ("How likely are you to promote this event to your friend?", num promote) ].

(** Timestamps are days since 1970-01-01. *)
Definition jan01 : Z := 19723.
Definition jan31 : Z := 19753.
Definition feb10 : Z := 19763.

Definition row1 := submission 1 (CDate jan01) (CStr "560123") (num 1) 30 "F" "Chinese" "Flyer" 2 4 5 9.
Definition row2 := submission 2 (CDate jan31) (CStr "999999") (num 0) 40 "M" "Malay" "Friend" 0 3 4 7.
Definition row3 := submission 3 (CDate feb10) (CStr "560123") (num 1) 50 "F" "Indian" "Flyer" 5 5 5 10.
Definition row4 := submission 4 (CStr "soon") (CStr "238801") CNull 20 "M" "Chinese" "Online" 1 2 3 6.

Definition survey : DataFrame :=
  {| columns := survey_columns; rows := [row1; row2; row3; row4] |}.

Definition drop_column (col : string) (df : DataFrame) : DataFrame :=
  {| columns := List.filter (fun cd => negb (String.eqb cd.1 col)) (columns df);
     rows := map (delete col) (rows df) |}.

Definition read_excel (sheet_name : string) : result DataFrame :=
  if String.eqb sheet_name "Survey" then Ok survey
  else if String.eqb sheet_name "NoAttendance" then Ok (drop_column "Attendance" survey)
  else if String.eqb sheet_name "NoAge" then Ok (drop_column "Age" survey)
  else if String.eqb sheet_name "Blank" then Ok {| columns := survey_columns; rows := [] |}
  else Raise (ValueError "Worksheet not found").

Definition requests_get_json (url : string) : result Response :=
  if String.eqb url (search_url "560123") then
    Ok {| found := 1; results := [ {| LATITUDE := "1.37"; LONGITUDE := "103.85" |} ] |}
  else if String.eqb url (search_url "238801") then
    Ok {| found := 2;
          results := [ {| LATITUDE := "1.30"; LONGITUDE := "103.83" |};
                       {| LATITUDE := "1.31"; LONGITUDE := "103.84" |} ] |}
  else Ok {| found := 0; results := [] |}.

Definition py_str (c : cell) : string :=
  match c with
  | CStr s => s
  | CInt z => pretty z
  | CNum q => pretty (Qfloor q)
  | CInf negative => if negative then "-inf" else "inf"
  | CDate t => pretty t
  | CNull => "nan"
  end.

Definition py_float (s : string) : result xfloat :=
  if String.eqb s "1.37" then Ok (Fin (137 # 100))
  else if String.eqb s "103.85" then Ok (Fin (10385 # 100))
  else if String.eqb s "1.30" then Ok (Fin (130 # 100))
  else if String.eqb s "103.83" then Ok (Fin (10383 # 100))
  else if String.eqb s "nan" then Ok NaN
  else if String.eqb s "inf" then Ok (Inf false)
  else Raise (ValueError s).

(** Dates without an offset, as the date picker gives them, and one with. *)
Definition parse_naive (s : string) : option Z :=
  if String.eqb s "2024-01-01" then Some jan01
  else if String.eqb s "2024-01-31" then Some jan31
  else if String.eqb s "2024-02-10" then Some feb10
  else if String.eqb s "01/31/2024" then Some jan31
  else None.

Definition tz_aware (s : string) : bool :=
  String.eqb s "2024-01-01T00:00:00+00:00".

Definition parse_datetime (s : string) : option Z :=
  if tz_aware s then Some jan01 else parse_naive s.

(** In a column the format is that of its first string; a string in another
    format is not read.  A number is a count of nanoseconds. *)
Definition slashed (s : string) : bool := String.eqb s "01/31/2024".

Fixpoint column_slashed (column : list cell) : bool :=
  match column with
  | [] => false
  | CStr s :: _ => slashed s
  | _ :: column' => column_slashed column'
  end.

Definition datetime_in_column (column : list cell) (c : cell) : option Z :=
  match c with
  | CStr s =>
      if Bool.eqb (slashed s) (column_slashed column) then parse_naive s else None
  | CInt z => Some (z / 86400000000000)%Z
  | CNum q => Some (Qfloor q / 86400000000000)%Z
  | _ => None
  end.

Definition column_tz_aware (column : list cell) : bool := false.

(** The sum of a text column is the concatenation of its strings, the empty
    string when it has none; other sums of objects are not modelled. *)
Fixpoint concat_strings (l : list cell) : option string :=
  match l with
  | [] => Some ""
  | CStr s :: l' => option_map (String.append s) (concat_strings l')
  | CNull :: l' => concat_strings l'
  | _ :: _ => None
  end.

Definition object_sum (l : list cell) : option cell :=
  option_map CStr (concat_strings l).

Definition object_attrition (n : Z) (o : cell) : option xfloat := None.

Definition get_lat_lon := get_lat_lon requests_get_json py_str py_float.
Definition load_sheet :=
  load_sheet read_excel requests_get_json py_str py_float datetime_in_column
    column_tz_aware.
Definition load_and_filter :=
  load_and_filter read_excel requests_get_json py_str py_float parse_datetime
    tz_aware datetime_in_column column_tz_aware.
Definition update_dashboard :=
  update_dashboard read_excel requests_get_json py_str py_float parse_datetime
    tz_aware datetime_in_column column_tz_aware object_sum object_attrition.
Definition callback :=
  callback read_excel requests_get_json py_str py_float parse_datetime
    tz_aware datetime_in_column column_tz_aware object_sum object_attrition.

(** The frame of a load that returned. *)
Definition frame_of (run : result DataFrame * list string) :=
  match run.1 as r return (match r with Ok _ => DataFrame | Raise _ => unit end) with
  | Ok df => df
  | Raise _ => tt
  end.

Definition loaded : DataFrame := frame_of (load_sheet "Survey" []).
Definition loaded_no_attendance : DataFrame := frame_of (load_sheet "NoAttendance" []).
Definition loaded_no_age : DataFrame := frame_of (load_sheet "NoAge" []).

(** The outputs of a run that returned. *)
Definition returned (run : result Outputs * list string) :=
  match run.1 as r return (match r with Ok _ => Outputs | Raise _ => unit end) with
  | Ok out => out
  | Raise _ => tt
  end.

(** The whole sheet, then January 2024 only, then a range that holds no row. *)
Definition all_run := update_dashboard "Survey" None None [].
Definition all_out : Outputs := Eval vm_compute in returned all_run.
Definition all_log : list string := Eval vm_compute in all_run.2.

Definition january_run :=
  update_dashboard "Survey" (Some "2024-01-01") (Some "2024-01-31") [].
Definition january_out : Outputs := Eval vm_compute in returned january_run.
Definition january_log : list string := Eval vm_compute in january_run.2.

Definition nobody_run :=
  update_dashboard "Survey" (Some "2024-01-31") (Some "2024-01-01") [].
Definition nobody_out : Outputs := Eval vm_compute in returned nobody_run.

End Fixture.

Example fixture_lookup_known :
  Fixture.get_lat_lon (CStr "560123") [] =
    (Ok (Some (Fin (137 # 100)), Some (Fin (10385 # 100))), [search_url "560123"]).
Proof. vm_compute. reflexivity. Qed.

Example fixture_lookup_unknown :
  Fixture.get_lat_lon (CStr "999999") [] = (Ok (None, None), [search_url "999999"]).
Proof. vm_compute. reflexivity. Qed.

Example fixture_january :
  (let '(r, log) := Fixture.update_dashboard "Survey" (Some "2024-01-01") (Some "2024-01-31") [] in
   (match r with
    | Ok out => Some (attendance_row out, length (heatmap_layer out), data_table out)
    | Raise _ => None
    end, length log)) =
  (Some ([ mkCard "🎟️ Total Attendance" (Fmt (TFloat (Fin 1)));
           mkCard "📉 Attrition Rate" (Fmt2f (Fin (100 # 2)) "%") ],
         2%nat, ""), 4%nat).
Proof. vm_compute. reflexivity. Qed.

Example fixture_blank_sheet :
  Fixture.load_sheet "Blank" [] =
    (Raise (ValueError "not enough values to unpack (expected 2, got 0)"), []).
Proof. vm_compute. reflexivity. Qed.

(** ** The page as the script lays it out *)

(** D01.py, lines 63-68: the options of the sheet selector, one per
    worksheet of the workbook, in the workbook's order. *)
Definition sheet_options (sheet_names : list string) : list (string * string) :=
  map (fun sheet => (sheet, sheet)) sheet_names.

(** D01.py, lines 63-77 and 110: what the components hold before the user
    touches them.  The selector starts on [sheet_names[0]], which does not
    exist for a workbook without worksheets; the date picker is given no
    date and the multi-select no value. *)
Definition initial_page (sheet_names : list string) : result Page :=
  match sheet_names with
  | [] => Raise IndexError
  | sheet :: _ => Ok (mkPage sheet None None [])
  end.

(** ** More vocabulary for statements *)

(** A run whose requests do not depend on what was requested before. *)
Definition uniform {A} (m : Net A) : Prop :=
  forall log, m log = ((m []).1, (log ++ (m []).2)%list).

(** The names of a frame after [df[col] = ...]: a new column goes last. *)
Definition append_new (col : string) (names : list string) : list string :=
  if bool_decide (col ∈ names) then names else (names ++ [col])%list.

(** The mean of a column computed by hand from the rows: the sum of its
    numbers over how many there are, and NaN when there is none. *)
Fixpoint hand_sum_of (col : string) (l : list (gmap string cell)) : xfloat :=
  match l with
  | [] => Fin 0
  | r :: l' =>
      match number_of (cell_at col r) with
      | Some x => fadd x (hand_sum_of col l')
      | None => hand_sum_of col l'
      end
  end.

Fixpoint hand_count_of (col : string) (l : list (gmap string cell)) : Z :=
  match l with
  | [] => 0%Z
  | r :: l' =>
      match number_of (cell_at col r) with
      | Some _ => (1 + hand_count_of col l')%Z
      | None => hand_count_of col l'
      end
  end.

Definition hand_mean (col : string) (l : list (gmap string cell)) : xfloat :=
  if (hand_count_of col l =? 0)%Z then NaN
  else fdiv (hand_sum_of col l) (inject_Z (hand_count_of col l)).

(** Every attendance cell is blank, or the number 0 or 1 or a float between
    them. *)
Definition unit_attendance (l : list (gmap string cell)) : Prop :=
  Forall (fun r => match attendance_of r with
                   | CNull => True
                   | CNum q => 0 <= q /\ q <= 1
                   | CInt z => (0 <= z <= 1)%Z
                   | _ => False
                   end) l.

(** The columns the callback reads besides those [load_sheet] sets. *)
Definition averaged_columns : list string :=
  [ "Age"; "How many new neighbours met?";
    "How much better do you know your neighbours?";
    "Rating of the whole event.";
    "How likely are you to promote this event to your friend?" ].

Definition pie_columns : list string := [ "Gender"; "Race"; "Marketing" ].

(** A column is of a numeric dtype. *)
Definition numeric_dtype (dt : option dtype) : Prop :=
  dt = Some DInt64 \/ dt = Some DNumeric.

(** A cell is one a column of the dtype holds: integers in an int64 column,
    floats in a float64 column, and blanks. *)
Definition fits (dt : option dtype) (c : cell) : Prop :=
  match dt, c with
  | Some DInt64, (CInt _ | CNull) => True
  | Some DNumeric, (CInt _ | CNum _ | CInf _ | CNull) => True
  | _, _ => False
  end.

(** The number a total is, when it is one. *)
Definition total_number (t : total) : option Q :=
  match t with
  | TInt z => Some (inject_Z z)
  | TFloat (Fin q) => Some q
  | _ => None
  end.

(** A sheet the callback can render: the attendance column is numeric and
    holds numbers and blanks, the five averaged columns are numeric, and the
    columns of the three pie charts exist. *)
Definition complete_sheet (df : DataFrame) : Prop :=
  numeric_dtype (dtype_of "Attendance" (columns df)) /\
  Forall (fun r => fits (dtype_of "Attendance" (columns df)) (attendance_of r))
    (rows df) /\
  Forall (fun col => numeric_dtype (dtype_of col (columns df))) averaged_columns /\
  Forall (fun col => has_column df col = true) pie_columns.

(** A second workbook and a service that can fail. *)
Module Edge.

Definition read_excel (sheet_name : string) : result DataFrame :=
  if String.eqb sheet_name "NoDate" then
    Ok (Fixture.drop_column "Event Date" Fixture.survey)
  else if String.eqb sheet_name "NoPostal" then
    Ok (Fixture.drop_column "Postal Code" Fixture.survey)
  else Fixture.read_excel sheet_name.

(** The second postal code of the survey cannot be looked up. *)
Definition requests_get_json (url : string) : result Response :=
  if String.eqb url (search_url "999999") then Raise (RequestException "timeout")
  else Fixture.requests_get_json url.

(** The survey with another attendance column. *)
Definition with_attendance (dt : dtype) (cells : list cell) (df : DataFrame)
  : DataFrame :=
  {| columns := set_dtype "Attendance" dt (columns df);
     rows := zip_with (fun r v => <["Attendance" := v]> r) (rows df) cells |}.

(** A crowd too large for 64 bits, an attendance written out in words, and
    dates in two formats. *)
Definition crowd : DataFrame :=
  with_attendance DInt64
    [CInt (2 ^ 62); CInt (2 ^ 62); CInt (2 ^ 62); CInt 0] Fixture.survey.

Definition in_words : DataFrame :=
  with_attendance DObject [CStr "yes"; CStr "no"; CStr "yes"; CNull]
    Fixture.survey.

Definition two_formats : DataFrame :=
  {| columns := columns Fixture.survey;
     rows := zip_with (fun r v => <["Event Date" := v]> r) (rows Fixture.survey)
               [CStr "2024-01-01"; CStr "01/31/2024"; CStr "2024-02-10"; CNull] |}.

Definition workbook (sheet_name : string) : result DataFrame :=
  if String.eqb sheet_name "Crowd" then Ok crowd
  else if String.eqb sheet_name "InWords" then Ok in_words
  else if String.eqb sheet_name "TwoFormats" then Ok two_formats
  else Fixture.read_excel sheet_name.

(** A service that answers a latitude that is not a number. *)
Definition nan_service (url : string) : result Response :=
  Ok {| found := 1; results := [ {| LATITUDE := "nan"; LONGITUDE := "103.85" |} ] |}.

Definition update_dashboard :=
  update_dashboard workbook Fixture.requests_get_json Fixture.py_str
    Fixture.py_float Fixture.parse_datetime Fixture.tz_aware
    Fixture.datetime_in_column Fixture.column_tz_aware Fixture.object_sum
    Fixture.object_attrition.
Definition load_and_filter :=
  load_and_filter workbook Fixture.requests_get_json Fixture.py_str
    Fixture.py_float Fixture.parse_datetime Fixture.tz_aware
    Fixture.datetime_in_column Fixture.column_tz_aware.


End Edge.

(** ** Properties *)

Local Open Scope list_scope.

(** *** The result and request monads *)

Lemma rbind_Ok {A B} (m : result A) (k : A -> result B) (b : B) :
  rbind m k = Ok b -> exists a, m = Ok a /\ k a = Ok b.
Proof. destruct m as [a|e]; simpl; [eauto | discriminate]. Qed.

Lemma bind_Ok {A B} (m : Net A) (k : A -> Net B) log b log' :
  bind m k log = (Ok b, log') ->
  exists a log1, m log = (Ok a, log1) /\ k a log1 = (Ok b, log').
Proof.
  unfold bind. destruct (m log) as [[a|e] log1]; [eauto | discriminate].
Qed.

Lemma lift_Ok {A} (r : result A) log a log' :
  lift r log = (Ok a, log') -> r = Ok a /\ log' = log.
Proof. unfold lift. intros [= -> ->]. done. Qed.

(** Inversion of a chain of binds that ended well. *)
Ltac inv_res H :=
  repeat match type of H with
         | rbind ?m _ = Ok _ =>
             let a := fresh "a" in
             let E := fresh "E" in
             apply rbind_Ok in H; destruct H as (a & E & H)
         end.

(** *** Lists *)

Lemma zip_with_map_r {A B C} (f : A -> B -> C) (g : A -> B) (l : list A) :
  zip_with f l (map g l) = map (fun x => f x (g x)) l.
Proof. induction l as [|x l IH]; simpl; [done | by rewrite IH]. Qed.

Lemma select_mask {A} (p : A -> bool) (l : list A) :
  select l (map p l) = List.filter p l.
Proof.
  induction l as [|x l IH]; simpl; [done |].
  rewrite IH. reflexivity.
Qed.

Lemma mask_and_map {A} (p q : A -> bool) (l : list A) :
  mask_and (map p l) (map q l) = map (fun x => p x && q x) l.
Proof.
  unfold mask_and. induction l as [|x l IH]; simpl; [done | by rewrite IH].
Qed.

(** *** Columns *)

Lemma set_dtype_names col dt cs c :
  c ∈ (set_dtype col dt cs).*1 <-> c = col \/ c ∈ cs.*1.
Proof.
  induction cs as [|[c' d'] cs IH]; simpl.
  - rewrite list_elem_of_singleton.
    split; [tauto | intros [?|H]; [done | by apply elem_of_nil in H]].
  - destruct (String.eqb_spec c' col) as [->|Hne]; simpl.
    + rewrite !elem_of_cons. tauto.
    + rewrite !elem_of_cons, IH. tauto.
Qed.

Lemma has_column_true df col : has_column df col = true <-> col ∈ (columns df).*1.
Proof. unfold has_column. apply bool_decide_eq_true. Qed.

Lemma getitem_Ok df col l :
  getitem df col = Ok l ->
  has_column df col = true /\ l = map (cell_at col) (rows df).
Proof.
  unfold getitem. destruct (has_column df col); [|discriminate].
  intros [= <-]. done.
Qed.

Lemma getitem_has df col :
  has_column df col = true -> getitem df col = Ok (map (cell_at col) (rows df)).
Proof. unfold getitem. by intros ->. Qed.

Lemma getitem_missing df col :
  has_column df col = false -> getitem df col = Raise (KeyError col).
Proof. unfold getitem. by intros ->. Qed.

Lemma setitem_Ok df col dt vals df' :
  setitem df col dt vals = Ok df' ->
  length vals = length (rows df) /\
  columns df' = set_dtype col dt (columns df) /\
  rows df' = zip_with (fun r v => <[col := v]> r) (rows df) vals.
Proof.
  unfold setitem. destruct (Nat.eqb_spec (length vals) (length (rows df))); [|discriminate].
  intros [= <-]. done.
Qed.

Lemma setitem_map df col dt (g : gmap string cell -> cell) :
  setitem df col dt (map g (rows df)) =
    Ok {| columns := set_dtype col dt (columns df);
          rows := map (fun r => <[col := g r]> r) (rows df) |}.
Proof.
  unfold setitem. rewrite length_map, Nat.eqb_refl.
  by rewrite zip_with_map_r.
Qed.

Lemma cell_at_insert col v r : cell_at col (<[col := v]> r) = v.
Proof. unfold cell_at. by rewrite lookup_insert_eq. Qed.

Lemma cell_at_insert_ne col col' v r :
  col <> col' -> cell_at col' (<[col := v]> r) = cell_at col' r.
Proof. intros. unfold cell_at. by rewrite lookup_insert_ne. Qed.

Lemma zip_with_insert3 {K V P} `{Countable K} (k1 k2 : K) (g : gmap K V -> gmap K V)
    (a b : P -> V) (l : list (gmap K V)) (ps : list P) :
  zip_with (fun r v => <[k2 := v]> r)
    (zip_with (fun r v => <[k1 := v]> r) (map g l) (map a ps)) (map b ps)
  = zip_with (fun r p => <[k2 := b p]> (<[k1 := a p]> (g r))) l ps.
Proof.
  revert ps. induction l as [|r l IH]; intros [|p ps]; simpl; try done.
  by rewrite IH.
Qed.

Lemma Forall2_map_left {A B C} (f : A -> B) (P : B -> C -> Prop) l l' :
  Forall2 P (map f l) l' -> Forall2 (fun x y => P (f x) y) l l'.
Proof.
  revert l'. induction l as [|x l IH]; intros [|y l']; simpl; intros HF;
    inversion HF; subst; constructor; auto.
Qed.

Lemma Forall2_zip_with_l {A B C} (Q : A -> B -> Prop) (P : A -> C -> Prop)
    (f : A -> B -> C) l ps :
  Forall2 Q l ps -> (forall x p, Q x p -> P x (f x p)) ->
  Forall2 P l (zip_with f l ps).
Proof.
  intros HF HQ. induction HF; simpl; constructor; auto.
Qed.

Lemma dtype_of_set_dtype col dt cs : dtype_of col (set_dtype col dt cs) = Some dt.
Proof.
  induction cs as [|[c d] cs IH]; simpl.
  - by rewrite String.eqb_refl.
  - destruct (String.eqb c col) eqn:E; simpl; rewrite E; auto.
Qed.

Lemma dtype_of_set_dtype_ne col col' dt cs :
  col <> col' -> dtype_of col (set_dtype col' dt cs) = dtype_of col cs.
Proof.
  intros Hne. induction cs as [|[c d] cs IH]; simpl.
  - destruct (String.eqb_spec col' col); congruence.
  - destruct (String.eqb_spec c col') as [->|]; simpl.
    + destruct (String.eqb_spec col' col); congruence.
    + destruct (String.eqb c col); auto.
Qed.

Lemma set_dtype_same col dt cs : dtype_of col cs = Some dt -> set_dtype col dt cs = cs.
Proof.
  induction cs as [|[c d] cs IH]; simpl; [discriminate|].
  destruct (String.eqb c col).
  - by intros [= ->].
  - intros H. by rewrite IH.
Qed.

Lemma filter_In_iff {A} (p : A -> bool) (l : list A) x :
  In x (List.filter p l) <-> In x l /\ p x = true.
Proof. apply filter_In. Qed.

(** *** Floats and 64-bit integers *)

Lemma same_number_refl a : same_number a a.
Proof. destruct a; simpl; done. Qed.

Lemma same_number_sym a b : same_number a b -> same_number b a.
Proof. destruct a, b; simpl; try done; intros H; by rewrite H. Qed.

Lemma same_number_trans a b c :
  same_number a b -> same_number b c -> same_number a c.
Proof.
  destruct a, b, c; simpl; try done; try congruence.
  intros H1 H2. by rewrite H1.
Qed.

Lemma fadd_same a a' b b' :
  same_number a a' -> same_number b b' -> same_number (fadd a b) (fadd a' b').
Proof.
  destruct a, a', b, b'; simpl; try done;
    try (intros H1 H2; by rewrite H1, H2);
    try (intros -> ->; apply same_number_refl).
Qed.

Lemma fadd_assoc a b c : same_number (fadd (fadd a b) c) (fadd a (fadd b c)).
Proof.
  destruct a as [x|[]|], b as [y|[]|], c as [z|[]|]; simpl; try done; ring.
Qed.

Lemma fadd_0_l a : same_number (fadd (Fin 0) a) a.
Proof. destruct a; simpl; try done; ring. Qed.

Lemma fneg_same a a' : same_number a a' -> same_number (fneg a) (fneg a').
Proof.
  destruct a, a'; simpl; try done; try (intros H; by rewrite H); by intros ->.
Qed.

Lemma fsub_same a a' b b' :
  same_number a a' -> same_number b b' -> same_number (fsub a b) (fsub a' b').
Proof. intros H1 H2. apply fadd_same; [done | by apply fneg_same]. Qed.

Lemma fdiv_same a a' q : same_number a a' -> same_number (fdiv a q) (fdiv a' q).
Proof.
  destruct a, a'; simpl; try done; try (intros H; by rewrite H); by intros ->.
Qed.

Lemma fmul_same a a' q : same_number a a' -> same_number (fmul a q) (fmul a' q).
Proof.
  destruct a, a'; simpl; try done; try (intros H; by rewrite H); by intros ->.
Qed.

Lemma hand_rate_same n a a' :
  same_number a a' -> same_number (hand_rate n a) (hand_rate n a').
Proof.
  intros H. unfold hand_rate. destruct (n =? 0)%Z; [done|].
  by apply fmul_same, fdiv_same.
Qed.

Lemma wrap64_int64 z : int64 (wrap64 z).
Proof.
  unfold int64, wrap64.
  pose proof (Z.mod_pos_bound (z + 2 ^ 63) (2 ^ 64) ltac:(lia)). lia.
Qed.

Lemma wrap64_id z : int64 z -> wrap64 z = z.
Proof.
  unfold int64, wrap64. intros H. rewrite Z.mod_small by lia. lia.
Qed.

Lemma wrap64_add_l a b : wrap64 (wrap64 a + b) = wrap64 (a + b).
Proof.
  unfold wrap64.
  replace ((a + 2 ^ 63) mod 2 ^ 64 - 2 ^ 63 + b + 2 ^ 63)%Z
    with ((a + 2 ^ 63) mod 2 ^ 64 + b)%Z by lia.
  rewrite Zplus_mod_idemp_l. f_equal. f_equal. lia.
Qed.

(** *** Attendance figures *)

Lemma float_sum_from_hand acc l a :
  float_sum_from acc (map attendance_of l) = Ok a ->
  same_number a (fadd acc (hand_total l)).
Proof.
  revert acc. induction l as [|r l IH]; intros acc; simpl.
  - intros [= <-]. destruct acc; simpl; try done. ring.
  - destruct (attendance_of r) as [z|q|neg|str|t|]; simpl; try discriminate.
    + intros H. apply IH in H. eapply same_number_trans; [exact H|].
      apply fadd_assoc.
    + intros H. apply IH in H. eapply same_number_trans; [exact H|].
      apply fadd_assoc.
    + intros H. apply IH in H. eapply same_number_trans; [exact H|].
      apply fadd_assoc.
    + apply IH.
Qed.

Lemma float_sum_from_raises acc l e :
  float_sum_from acc l = Raise e -> e = TypeError.
Proof.
  revert acc. induction l as [|c l IH]; intros acc; simpl; [discriminate|].
  destruct c; eauto; by intros [= <-].
Qed.

Lemma int_sum_from_hand acc l z :
  int_sum_from acc (map attendance_of l) = Ok z ->
  wrap64 z = wrap64 (acc + hand_int_total l) /\
  (int64 acc -> int64 z) /\
  same_number (Fin (inject_Z (hand_int_total l))) (hand_total l).
Proof.
  revert acc. induction l as [|r l IH]; intros acc; simpl.
  - intros [= <-]. rewrite Z.add_0_r. done.
  - destruct (attendance_of r) as [z'|q|neg|str|t|]; simpl; try discriminate.
    + intros H. apply IH in H as (H1 & H2 & H3).
      split; [|split].
      * rewrite H1, wrap64_add_l. f_equal. lia.
      * intros _. apply H2, wrap64_int64.
      * destruct (hand_total l); simpl in *; try done.
        rewrite <- H3, inject_Z_plus. done.
    + apply IH.
Qed.

Lemma int_sum_from_raises acc l e :
  int_sum_from acc l = Raise e -> e = TypeError.
Proof.
  revert acc. induction l as [|c l IH]; intros acc; simpl; [discriminate|].
  destruct c; eauto; by intros [= <-].
Qed.

Lemma series_count_hand l :
  series_count (map attendance_of l) = hand_registrants l.
Proof.
  unfold series_count. induction l as [|r l IH]; simpl; [done|].
  destruct (attendance_of r); simpl; rewrite <- ?IH; lia.
Qed.

Lemma hand_registrants_nonneg l : (0 <= hand_registrants l)%Z.
Proof. rewrite <- series_count_hand. unfold series_count. lia. Qed.

Lemma all_null_no_registrants l :
  hand_registrants l = 0%Z -> Forall (fun r => attendance_of r = CNull) l.
Proof.
  induction l as [|r l IH]; simpl; [constructor|].
  pose proof (hand_registrants_nonneg l).
  destruct (attendance_of r) eqn:E; try lia. intros H0. constructor; auto.
Qed.

Lemma float_sum_from_nulls acc l :
  Forall (fun r => attendance_of r = CNull) l ->
  float_sum_from acc (map attendance_of l) = Ok acc.
Proof.
  induction 1 as [|r l Hr _ IH]; simpl; [done|]. by rewrite Hr.
Qed.

Lemma int_sum_from_nulls acc l :
  Forall (fun r => attendance_of r = CNull) l ->
  int_sum_from acc (map attendance_of l) = Ok acc.
Proof.
  induction 1 as [|r l Hr _ IH]; simpl; [done|]. by rewrite Hr.
Qed.

Lemma Qeq_bool_pos n : (0 < n)%Z -> Qeq_bool (inject_Z n) 0 = false.
Proof.
  intros Hn. destruct (Qeq_bool (inject_Z n) 0) eqn:E; [|done].
  apply Qeq_bool_eq in E. unfold Qeq in E. simpl in E. lia.
Qed.

Lemma truediv_pos a n : (0 < n)%Z -> truediv a (inject_Z n) = Ok (fdiv a (inject_Z n)).
Proof. intros Hn. unfold truediv. by rewrite Qeq_bool_pos. Qed.

Lemma zip_map_same {A B C} (f : A -> B) (g : A -> C) (l : list A) :
  zip (map f l) (map g l) = map (fun x => (f x, g x)) l.
Proof. induction l as [|x l IH]; simpl; [done | by rewrite IH]. Qed.

Lemma lookup_map {A B} (f : A -> B) (l : list A) (i : nat) :
  map f l !! i = f <$> (l !! i).
Proof. exact (list_lookup_fmap f l i). Qed.

Lemma In_zip_with_Forall2 {A B C} (Q : A -> B -> Prop) (f : A -> B -> C) l ps y :
  Forall2 Q l ps -> In y (zip_with f l ps) ->
  exists x p, Q x p /\ y = f x p.
Proof.
  intros HF. induction HF as [|x p l ps HQ HF IH]; simpl; [done|].
  intros [<-|Hin]; eauto.
Qed.

Lemma series_get_mean_missing df key :
  has_column df key = false ->
  series_get (mean_numeric_only df) key = Raise (KeyError key).
Proof.
  unfold has_column, mean_numeric_only. intros H.
  apply bool_decide_eq_false in H.
  induction (columns df) as [|[c d] cs IH]; simpl; [done|].
  simpl in H. apply not_elem_of_cons in H as [Hne Hcs].
  destruct d; simpl; auto;
    destruct (String.eqb_spec c key); congruence || auto.
Qed.

Section Properties.

Variable read_excel : string -> result DataFrame.
Variable requests_get_json : string -> result Response.
Variable py_str : cell -> string.
Variable py_float : string -> result xfloat.
Variable parse_datetime : string -> option Z.
Variable tz_aware : string -> bool.
Variable datetime_in_column : list cell -> cell -> option Z.
Variable column_tz_aware : list cell -> bool.
Variable object_sum : list cell -> option cell.
Variable object_attrition : Z -> cell -> option xfloat.

Local Abbreviation get_lat_lon := (get_lat_lon requests_get_json py_str py_float).
Local Abbreviation to_datetime_coerce := (to_datetime_coerce datetime_in_column).
Local Abbreviation datetime_dtype := (datetime_dtype column_tz_aware).
Local Abbreviation to_datetime := (to_datetime parse_datetime tz_aware).
Local Abbreviation load_sheet :=
  (load_sheet read_excel requests_get_json py_str py_float datetime_in_column
     column_tz_aware).
Local Abbreviation date_filter :=
  (date_filter parse_datetime tz_aware datetime_in_column column_tz_aware).
Local Abbreviation series_sum := (series_sum object_sum).
Local Abbreviation attrition := (attrition object_attrition).
Local Abbreviation attendance_stats :=
  (attendance_stats object_sum object_attrition).
Local Abbreviation render := (render object_sum object_attrition).
Local Abbreviation load_and_filter :=
  (load_and_filter read_excel requests_get_json py_str py_float parse_datetime
     tz_aware datetime_in_column column_tz_aware).
Local Abbreviation update_dashboard :=
  (update_dashboard read_excel requests_get_json py_str py_float parse_datetime
     tz_aware datetime_in_column column_tz_aware object_sum object_attrition).
Local Abbreviation callback :=
  (callback read_excel requests_get_json py_str py_float parse_datetime
     tz_aware datetime_in_column column_tz_aware object_sum object_attrition).
Local Abbreviation request_of := (request_of py_str).
Local Abbreviation geocode := (geocode requests_get_json py_str py_float).
Local Abbreviation loaded_row := (loaded_row datetime_in_column).
Local Abbreviation coordinates_as_found :=
  (coordinates_as_found requests_get_json py_str py_float).
Local Abbreviation unparsable := (unparsable datetime_in_column).
Local Abbreviation dates_aware := (dates_aware column_tz_aware).
Local Abbreviation converted := (converted datetime_in_column column_tz_aware).

Lemma get_lat_lon_run pc log :
  get_lat_lon pc log = (geocode pc, log ++ [search_url (py_str pc)]).
Proof.
  unfold geocode, get_lat_lon, bind, http_get_json, lift, ret, raise.
  simpl.
  destruct (requests_get_json _) as [resp|]; simpl; [|done].
  destruct (found resp >? 0)%Z; [|done].
  destruct (results resp) as [|r rest]; [done|].
  destruct (py_float (LATITUDE r)); simpl; [|done].
  destruct (py_float (LONGITUDE r)); done.
Qed.

Lemma mapM_get_lat_lon_Ok l log pairs log' :
  mapM get_lat_lon l log = (Ok pairs, log') ->
  Forall2 (fun pc p => geocode pc = Ok p) l pairs /\
  log' = log ++ map (fun pc => search_url (py_str pc)) l.
Proof.
  revert log pairs. induction l as [|pc l IH]; intros log pairs; simpl.
  - intros [= <- <-]. split; [constructor | by rewrite app_nil_r].
  - unfold bind at 1. rewrite get_lat_lon_run.
    destruct (geocode pc) as [p|] eqn:Ep; [|discriminate].
    unfold bind at 1.
    destruct (mapM _ l _) as [[ps|] log1] eqn:El; [|discriminate].
    intros [= <- <-]. apply IH in El as [HF ->].
    split; [by constructor |]. by rewrite <- app_assoc.
Qed.

Lemma mapM_get_lat_lon_total l log :
  Forall (fun pc => exists p, geocode pc = Ok p) l ->
  exists pairs,
    mapM get_lat_lon l log =
      (Ok pairs, log ++ map (fun pc => search_url (py_str pc)) l) /\
    length pairs = length l.
Proof.
  intros HF. revert log. induction HF as [|pc l [p Hp] _ IH]; intros log; simpl.
  - exists []. by rewrite app_nil_r.
  - destruct (IH (log ++ [search_url (py_str pc)])) as (ps & E & Hlen).
    exists (p :: ps). unfold bind at 1. rewrite get_lat_lon_run, Hp.
    unfold bind at 1. rewrite E. unfold ret. simpl.
    by rewrite <- app_assoc, Hlen.
Qed.

Lemma setitem_coerce df dt column :
  setitem df "Event Date" dt
    (map (to_datetime_coerce column) (map (cell_at "Event Date") (rows df))) =
    Ok {| columns := set_dtype "Event Date" dt (columns df);
          rows := map (fun r => <["Event Date" :=
                                    to_datetime_coerce column (cell_at "Event Date" r)]> r)
                      (rows df) |}.
Proof.
  rewrite map_map.
  apply (setitem_map df "Event Date" dt
           (fun r => to_datetime_coerce column (cell_at "Event Date" r))).
Qed.

(** What [load_sheet] returns when it returns: every row of the sheet, with
    its date coerced and the pair of its own lookup; one request per row. *)
Lemma load_sheet_Ok name log df log' :
  load_sheet name log = (Ok df, log') ->
  exists df0 pairs,
    read_excel name = Ok df0 /\
    has_column df0 "Event Date" = true /\
    has_column df0 "Postal Code" = true /\
    Forall2 (fun r p => geocode (cell_at "Postal Code" r) = Ok p) (rows df0) pairs /\
    rows df = zip_with (loaded_row (date_column df0)) (rows df0) pairs /\
    columns df =
      set_dtype "Longitude" (coord_dtype (map snd pairs))
        (set_dtype "Latitude" (coord_dtype (map fst pairs))
           (set_dtype "Event Date"
              (datetime_dtype (dtype_at df0 "Event Date") (date_column df0))
              (columns df0))) /\
    log' = log ++ map request_of (rows df0) /\
    rows df0 <> [].
Proof.
  unfold load_sheet. intros H.
  apply bind_Ok in H as (df0 & l0 & [E0 ->]%lift_Ok & H).
  apply bind_Ok in H as (dates & l0 & [E1 ->]%lift_Ok & H).
  apply bind_Ok in H as (df1 & l0 & [E2 ->]%lift_Ok & H).
  apply bind_Ok in H as (postal & l0 & [E3 ->]%lift_Ok & H).
  apply bind_Ok in H as (pairs & log1 & E4 & H).
  apply getitem_Ok in E1 as [Hed ->].
  rewrite setitem_coerce in E2. injection E2 as <-.
  apply getitem_Ok in E3 as [Hpc ->]. simpl in E4, Hpc.
  apply mapM_get_lat_lon_Ok in E4 as [HF ->].
  destruct pairs as [|p0 ps]; [discriminate H|].
  cbv beta iota zeta in H. remember (p0 :: ps) as pairs eqn:Epairs.
  apply bind_Ok in H as (df2 & l0 & [E5 ->]%lift_Ok & H).
  apply bind_Ok in H as (df3 & l0 & [E6 ->]%lift_Ok & H).
  injection H as <- <-.
  apply setitem_Ok in E5 as (_ & Hc2 & Hr2). simpl in Hc2, Hr2.
  apply setitem_Ok in E6 as (_ & Hc3 & Hr3).
  rewrite Hc2 in Hc3. rewrite Hr2 in Hr3.
  rewrite !map_map in Hr3.
  exists df0, pairs. split; [done|]. split; [done|].
  split.
  { apply has_column_true. apply has_column_true in Hpc. simpl in Hpc.
    apply set_dtype_names in Hpc as [?|?]; [discriminate | done]. }
  split.
  { rewrite map_map in HF. apply Forall2_map_left in HF.
    eapply Forall2_impl; [exact HF|]. simpl. intros r p Hp.
    rewrite cell_at_insert_ne in Hp; done. }
  split.
  { rewrite Hr3.
    exact (zip_with_insert3 "Latitude" "Longitude"
             (fun r => <["Event Date" :=
                           to_datetime_coerce (date_column df0)
                             (cell_at "Event Date" r)]> r)
             (fun p => coord_cell p.1) (fun p => coord_cell p.2) _ _). }
  split; [done|].
  split.
  { rewrite !map_map. f_equal. apply map_ext. intros r. unfold request_of.
    by rewrite cell_at_insert_ne. }
  intros Hnil. rewrite Hnil in HF. simpl in HF. subst pairs. inversion HF.
Qed.

(** [load_sheet] does return, whatever the cells of the date column hold,
    once the sheet has rows and the two columns, and every lookup returns. *)
Lemma load_sheet_total name log df0 :
  read_excel name = Ok df0 ->
  has_column df0 "Event Date" = true ->
  has_column df0 "Postal Code" = true ->
  rows df0 <> [] ->
  Forall (fun r => exists p, geocode (cell_at "Postal Code" r) = Ok p) (rows df0) ->
  exists df, load_sheet name log = (Ok df, log ++ map request_of (rows df0)).
Proof.
  intros E0 Hed Hpc Hne HF.
  set (g := fun r : gmap string cell =>
              <["Event Date" := to_datetime_coerce (date_column df0)
                                  (cell_at "Event Date" r)]> r).
  assert (HF' : Forall (fun pc => exists p, geocode pc = Ok p)
                  (map (cell_at "Postal Code") (map g (rows df0)))).
  { rewrite map_map. apply Forall_forall. intros pc Hin.
    apply list_elem_of_In, in_map_iff in Hin as (r & <- & Hr).
    unfold g. rewrite cell_at_insert_ne by done.
    rewrite Forall_forall in HF. apply HF.
    by apply list_elem_of_In. }
  destruct (mapM_get_lat_lon_total _ log HF') as (pairs & Em & Hlen).
  rewrite !length_map in Hlen.
  assert (Hreq : map (fun pc => search_url (py_str pc))
                   (map (cell_at "Postal Code") (map g (rows df0)))
                 = map request_of (rows df0)).
  { rewrite !map_map. apply map_ext. intros r. unfold request_of, g.
    by rewrite cell_at_insert_ne. }
  rewrite Hreq in Em.
  unfold load_sheet, bind, lift. rewrite E0, (getitem_has _ _ Hed).
  rewrite setitem_coerce. fold (date_column df0). fold g.
  rewrite getitem_has; cycle 1.
  { apply has_column_true. simpl. apply set_dtype_names. right.
    by apply has_column_true. }
  simpl rows. rewrite Em.
  destruct pairs as [|p0 ps].
  { destruct (rows df0); [done | discriminate Hlen]. }
  cbv beta iota zeta. remember (p0 :: ps) as pairs eqn:Epairs.
  unfold setitem. simpl rows. rewrite !length_map, Hlen, Nat.eqb_refl.
  cbv beta iota. simpl rows.
  rewrite length_zip_with, !length_map, Hlen, Nat.min_id, Nat.eqb_refl.
  unfold ret. eauto.
Qed.

Lemma loaded_row_lat c r p :
  cell_at "Latitude" (loaded_row c r p) = coord_cell p.1.
Proof.
  unfold loaded_row. rewrite cell_at_insert_ne by done. apply cell_at_insert.
Qed.

Lemma loaded_row_lon c r p :
  cell_at "Longitude" (loaded_row c r p) = coord_cell p.2.
Proof. unfold loaded_row. apply cell_at_insert. Qed.

Lemma loaded_row_date c r p :
  cell_at "Event Date" (loaded_row c r p) =
    to_datetime_coerce c (cell_at "Event Date" r).
Proof.
  unfold loaded_row. rewrite !cell_at_insert_ne by done. apply cell_at_insert.
Qed.

Lemma loaded_row_other c col r p :
  col <> "Longitude" -> col <> "Latitude" -> col <> "Event Date" ->
  cell_at col (loaded_row c r p) = cell_at col r.
Proof.
  intros. unfold loaded_row. by rewrite !cell_at_insert_ne.
Qed.

(** The lookup, without the bookkeeping of requests. *)
Lemma geocode_unfold pc :
  geocode pc =
    (response <- requests_get_json (search_url (py_str pc)) ;;
     if (found response >? 0)%Z then
       match results response with
       | [] => Raise IndexError
       | r :: _ =>
           lat <- py_float (LATITUDE r) ;;
           lon <- py_float (LONGITUDE r) ;;
           Ok (Some lat, Some lon)
       end
     else Ok (None, None))%res.
Proof.
  unfold geocode, get_lat_lon, bind, http_get_json, lift, ret, raise. simpl.
  destruct (requests_get_json _) as [resp|]; simpl; [|done].
  destruct (found resp >? 0)%Z; [|done].
  destruct (results resp) as [|r rest]; [done|].
  destruct (py_float (LATITUDE r)); simpl; [|done].
  destruct (py_float (LONGITUDE r)); done.
Qed.

Lemma loaded_row_coordinates c r0 p :
  geocode (cell_at "Postal Code" r0) = Ok p ->
  coordinates_as_found r0 (loaded_row c r0 p).
Proof.
  rewrite geocode_unfold. unfold coordinates_as_found, request_of.
  destruct (requests_get_json _) as [resp|]; simpl; [|discriminate].
  intros H. exists resp. split; [done|].
  rewrite loaded_row_lat, loaded_row_lon.
  destruct (found resp >? 0)%Z.
  - destruct (results resp) as [|g rest]; [discriminate|].
    destruct (py_float (LATITUDE g)) as [lat|] eqn:Elat; simpl in H; [|discriminate].
    destruct (py_float (LONGITUDE g)) as [lon|] eqn:Elon; simpl in H; [|discriminate].
    injection H as <-. exists g, rest, lat, lon. repeat split; assumption.
  - injection H as <-. split; reflexivity.
Qed.


(** *** The date filter *)

Lemma to_datetime_coerce_datetime column c :
  (exists t, to_datetime_coerce column c = CDate t) \/
  to_datetime_coerce column c = CNull.
Proof.
  destruct c; simpl; eauto; destruct (datetime_in_column column _); eauto.
Qed.

Lemma to_datetime_coerce_idem column column' c :
  to_datetime_coerce column' (to_datetime_coerce column c) =
    to_datetime_coerce column c.
Proof.
  destruct (to_datetime_coerce_datetime column c) as [[t ->] | ->]; done.
Qed.

Lemma datetime_dtype_cases dt column :
  datetime_dtype dt column = DDatetime \/ datetime_dtype dt column = DDatetimeTZ.
Proof.
  unfold datetime_dtype. destruct dt; auto; destruct (column_tz_aware column); auto.
Qed.

Lemma datetime_dtype_idem dt column column' :
  datetime_dtype (datetime_dtype dt column) column' = datetime_dtype dt column.
Proof. destruct (datetime_dtype_cases dt column) as [-> | ->]; done. Qed.

Lemma in_range_spec ts te r :
  in_range ts te r = true <->
  exists t, cell_at "Event Date" r = CDate t /\ (ts <= t <= te)%Z.
Proof.
  unfold in_range. destruct (cell_at "Event Date" r) as [z|q|neg|s|t|];
    try (split; [discriminate | by intros (t' & [=] & _)]).
  rewrite andb_true_iff, !Z.leb_le. split.
  - intros. by exists t.
  - by intros (t' & [= <-] & ?).
Qed.

(** The comparison of the converted column with a selected date. *)
Lemma compare_timestamp_same dt column op col t aware :
  aware = match datetime_dtype dt column with DDatetimeTZ => true | _ => false end ->
  compare_timestamp (datetime_dtype dt column) op col (t, aware) =
    Ok (map (op t) col).
Proof.
  intros ->. unfold compare_timestamp. simpl.
  destruct (datetime_dtype_cases dt column) as [-> | ->]; done.
Qed.

Lemma compare_timestamp_other dt column op col t aware :
  aware <> match datetime_dtype dt column with DDatetimeTZ => true | _ => false end ->
  compare_timestamp (datetime_dtype dt column) op col (t, aware) = Raise TypeError.
Proof.
  unfold compare_timestamp. simpl.
  destruct (datetime_dtype_cases dt column) as [-> | ->]; destruct aware; done.
Qed.

Lemma dtype_at_converted df :
  dtype_at (converted df) "Event Date" =
    datetime_dtype (dtype_at df "Event Date") (date_column df).
Proof. unfold dtype_at, converted. simpl. by rewrite dtype_of_set_dtype. Qed.

(** The date filter up to the two comparisons. *)
Lemma date_filter_unfold s e ts te df :
  s <> "" -> e <> "" ->
  parse_datetime s = Some ts -> parse_datetime e = Some te ->
  has_column df "Event Date" = true ->
  date_filter (Some s) (Some e) df =
    (m1 <- compare_timestamp (dtype_at (converted df) "Event Date") ge_timestamp
             (date_column (converted df)) (ts, tz_aware s) ;;
     m2 <- compare_timestamp (dtype_at (converted df) "Event Date") le_timestamp
             (date_column (converted df)) (te, tz_aware e) ;;
     Ok (boolean_index (converted df) (mask_and m1 m2)))%res.
Proof.
  intros Hs He Ps Pe Hcol. unfold date_filter, truthy, to_datetime.
  apply String.eqb_neq in Hs, He. rewrite Hs, He, Ps, Pe. simpl.
  rewrite (getitem_has _ _ Hcol). simpl.
  rewrite setitem_coerce. fold (date_column df). fold (converted df). simpl.
  rewrite getitem_has; cycle 1.
  { apply has_column_true. simpl. apply set_dtype_names. by left. }
  reflexivity.
Qed.

(** On a frame that has the date column, a full date range whose dates agree
    with the column on having a time zone keeps the rows whose coerced date
    lies in the closed range. *)
Lemma date_filter_range s e ts te df :
  s <> "" -> e <> "" ->
  parse_datetime s = Some ts -> parse_datetime e = Some te ->
  has_column df "Event Date" = true ->
  tz_aware s = dates_aware df -> tz_aware e = dates_aware df ->
  date_filter (Some s) (Some e) df =
    Ok {| columns := columns (converted df);
          rows := List.filter (in_range ts te) (rows (converted df)) |}.
Proof.
  intros Hs He Ps Pe Hcol As Ae.
  rewrite (date_filter_unfold s e ts te) by done.
  rewrite dtype_at_converted.
  rewrite !compare_timestamp_same by done. cbn [rbind].
  unfold boolean_index. cbn [rows columns].
  unfold date_column. generalize (rows (converted df)).
  intros L. rewrite !map_map, mask_and_map, select_mask. do 2 f_equal.
  apply filter_ext. intros r. unfold in_range, ge_timestamp, le_timestamp.
  by destruct (cell_at "Event Date" r).
Qed.

(** A selected date that disagrees with the column on having a time zone
    cannot be compared with it. *)
Lemma date_filter_mismatch s e ts te df :
  s <> "" -> e <> "" ->
  parse_datetime s = Some ts -> parse_datetime e = Some te ->
  has_column df "Event Date" = true ->
  tz_aware s <> dates_aware df \/ tz_aware e <> dates_aware df ->
  date_filter (Some s) (Some e) df = Raise TypeError.
Proof.
  intros Hs He Ps Pe Hcol Hmis.
  rewrite (date_filter_unfold s e ts te) by done.
  rewrite dtype_at_converted.
  destruct (bool_decide (tz_aware s = dates_aware df)) eqn:Es.
  - apply bool_decide_eq_true in Es.
    rewrite (compare_timestamp_same _ _ ge_timestamp) by done. simpl.
    destruct Hmis as [?|Hmis]; [done|].
    by rewrite compare_timestamp_other.
  - apply bool_decide_eq_false in Es.
    by rewrite compare_timestamp_other.
Qed.

Lemma loaded_row_coerced c c' r p :
  <["Event Date" := to_datetime_coerce c' (cell_at "Event Date" (loaded_row c r p))]>
    (loaded_row c r p) = loaded_row c r p.
Proof.
  apply insert_id. rewrite loaded_row_date, to_datetime_coerce_idem.
  unfold loaded_row. rewrite !lookup_insert_ne by done.
  apply lookup_insert_eq.
Qed.

Lemma map_zip_with_id {A B C} (f : A -> B -> C) (g : C -> C) l ps :
  (forall x p, g (f x p) = f x p) ->
  map g (zip_with f l ps) = zip_with f l ps.
Proof.
  intros Hg. revert ps. induction l as [|x l IH]; intros [|p ps]; simpl; try done.
  by rewrite Hg, IH.
Qed.

(** Converting the date column of a loaded frame again changes nothing. *)
Lemma converted_loaded name log df log' :
  load_sheet name log = (Ok df, log') ->
  converted df = df /\
  has_column df "Event Date" = true /\
  exists df0, read_excel name = Ok df0 /\ dates_aware df = dates_aware df0.
Proof.
  intros H.
  apply load_sheet_Ok in H as (df0 & pairs & E0 & Hed & _ & _ & Hr & Hc & _ & _).
  assert (Hdt : dtype_at df "Event Date" =
                datetime_dtype (dtype_at df0 "Event Date") (date_column df0)).
  { unfold dtype_at at 1. rewrite Hc.
    rewrite !dtype_of_set_dtype_ne by done. by rewrite dtype_of_set_dtype. }
  split; [|split].
  - destruct df as [cols rws]. unfold converted. simpl in *. f_equal.
    + apply set_dtype_same. rewrite Hdt, datetime_dtype_idem.
      fold (dtype_at {| columns := cols; rows := rws |} "Event Date") in Hdt.
      unfold dtype_at in Hdt. simpl in Hdt.
      rewrite Hc. rewrite !dtype_of_set_dtype_ne by done.
      by rewrite dtype_of_set_dtype.
    + rewrite Hr. apply map_zip_with_id. intros r p. apply loaded_row_coerced.
  - apply has_column_true. rewrite Hc.
    apply set_dtype_names; right; apply set_dtype_names; right;
      apply set_dtype_names; by left.
  - exists df0. split; [done|]. unfold dates_aware.
    by rewrite Hdt, datetime_dtype_idem.
Qed.

(** On the frame [load_sheet] returned, whose dates are coerced already. *)
Lemma date_filter_loaded name log df log' s e ts te :
  load_sheet name log = (Ok df, log') ->
  s <> "" -> e <> "" ->
  parse_datetime s = Some ts -> parse_datetime e = Some te ->
  tz_aware s = dates_aware df -> tz_aware e = dates_aware df ->
  date_filter (Some s) (Some e) df =
    Ok {| columns := columns df;
          rows := List.filter (in_range ts te) (rows df) |}.
Proof.
  intros H Hs He Ps Pe As Ae.
  destruct (converted_loaded _ _ _ _ H) as (Hconv & Hcol & _).
  rewrite (date_filter_range s e ts te) by done. by rewrite Hconv.
Qed.

Lemma date_filter_loaded_mismatch name log df log' s e ts te :
  load_sheet name log = (Ok df, log') ->
  s <> "" -> e <> "" ->
  parse_datetime s = Some ts -> parse_datetime e = Some te ->
  tz_aware s <> dates_aware df \/ tz_aware e <> dates_aware df ->
  date_filter (Some s) (Some e) df = Raise TypeError.
Proof.
  intros H Hs He Ps Pe Hmis.
  destruct (converted_loaded _ _ _ _ H) as (_ & Hcol & _).
  by apply (date_filter_mismatch s e ts te).
Qed.

Lemma date_filter_absent s e df :
  s = None \/ e = None -> date_filter s e df = Ok df.
Proof. intros [-> | ->]; [done | by destruct s]. Qed.

(** C3, as the script has it.  With a start date and an end date selected
    that agree with the date column on having a time zone (the date picker
    gives dates without one, and so does a spreadsheet), the callback keeps
    exactly the rows of the loaded sheet whose event date lies in the closed
    range: a date equal to either end is kept, a date before the start or
    after the end, and a missing date, is dropped.  Everything is rendered
    from the rows kept.  A selected date that disagrees with the column on
    the time zone cannot be compared with it: the callback then ends in a
    TypeError and keeps no row at all. *)
Theorem C3_date_range_inclusive name s e ts te log df log' :
  s <> "" -> e <> "" ->
  parse_datetime s = Some ts -> parse_datetime e = Some te ->
  load_sheet name log = (Ok df, log') ->
  let kept := {| columns := columns df;
                 rows := List.filter (in_range ts te) (rows df) |} in
  (tz_aware s = dates_aware df -> tz_aware e = dates_aware df ->
   load_and_filter name (Some s) (Some e) log = (Ok kept, log') /\
   update_dashboard name (Some s) (Some e) log = (render kept, log') /\
   (forall r, In r (rows kept) <->
              In r (rows df) /\
              exists t, cell_at "Event Date" r = CDate t /\ (ts <= t <= te)%Z)) /\
  (tz_aware s <> dates_aware df \/ tz_aware e <> dates_aware df ->
   update_dashboard name (Some s) (Some e) log = (Raise TypeError, log')).
Proof.
  intros Hs He Ps Pe H kept. split.
  - intros As Ae.
    assert (E : load_and_filter name (Some s) (Some e) log = (Ok kept, log')).
    { unfold load_and_filter, bind. rewrite H. unfold lift.
      by rewrite (date_filter_loaded name log df log' s e ts te). }
    split; [exact E|]. split.
    + unfold update_dashboard. unfold bind at 1. by rewrite E.
    + intros r. simpl. rewrite filter_In_iff, in_range_spec. done.
  - intros Hmis. unfold update_dashboard, load_and_filter, bind. rewrite H.
    unfold lift.
    by rewrite (date_filter_loaded_mismatch name log df log' s e ts te).
Qed.

(** C9.  When the start date or the end date is absent, no row is dropped:
    the callback renders the frame that [load_sheet] returned. *)
Theorem C9_no_filter_without_both_dates :
  (forall name e log,
      load_and_filter name None e log = load_sheet name log /\
      update_dashboard name None e log =
        bind (load_sheet name) (fun df => lift (render df)) log) /\
  (forall name s log,
      load_and_filter name s None log = load_sheet name log /\
      update_dashboard name s None log =
        bind (load_sheet name) (fun df => lift (render df)) log).
Proof.
  assert (G : forall name s e log, s = None \/ e = None ->
            load_and_filter name s e log = load_sheet name log /\
            update_dashboard name s e log =
              bind (load_sheet name) (fun df => lift (render df)) log).
  { intros name s e log Hse.
    assert (E : load_and_filter name s e log = load_sheet name log).
    { unfold load_and_filter, bind. destruct (load_sheet name log) as [[df|ex] l]; [|done].
      unfold lift. by rewrite date_filter_absent. }
    split; [exact E|].
    unfold update_dashboard. unfold bind at 1. rewrite E. reflexivity. }
  split; intros; apply G; auto.
Qed.

(** C5.  A value of the date column that cannot be parsed, read as pandas
    reads it in its column, becomes the null marker; it does not make the
    load fail.  The load returns a frame for every sheet that has rows, a
    date column and a postal-code column and whose lookups all return,
    whatever its date cells hold. *)
Theorem C5_malformed_dates_coerced name log df0 :
  read_excel name = Ok df0 ->
  has_column df0 "Event Date" = true ->
  has_column df0 "Postal Code" = true ->
  rows df0 <> [] ->
  Forall (fun r => exists p, geocode (cell_at "Postal Code" r) = Ok p) (rows df0) ->
  exists df,
    load_sheet name log = (Ok df, log ++ map request_of (rows df0)) /\
    Forall2 (fun r0 r =>
               cell_at "Event Date" r =
                 to_datetime_coerce (date_column df0) (cell_at "Event Date" r0) /\
               (unparsable (date_column df0) (cell_at "Event Date" r0) ->
                cell_at "Event Date" r = CNull))
      (rows df0) (rows df).
Proof.
  intros E0 Hed Hpc Hne HF.
  destruct (load_sheet_total name log df0 E0 Hed Hpc Hne HF) as (df & E).
  exists df. split; [exact E|].
  apply load_sheet_Ok in E as (df0' & pairs & E0' & _ & _ & HF2 & -> & _).
  rewrite E0 in E0'. injection E0' as <-.
  eapply Forall2_zip_with_l; [exact HF2|].
  intros r p _. rewrite loaded_row_date. split; [done|].
  unfold unparsable.
  destruct (cell_at "Event Date" r) as [z|q|neg|s|t|]; simpl; try done;
    by intros ->.
Qed.

Lemma uniform_lift {A} (r : result A) : uniform (lift r).
Proof. intros log. unfold lift. simpl. by rewrite app_nil_r. Qed.

Lemma uniform_bind {A B} (m : Net A) (k : A -> Net B) :
  uniform m -> (forall a, uniform (k a)) -> uniform (bind m k).
Proof.
  intros Hm Hk log. unfold bind. rewrite (Hm log).
  destruct (m []) as [[a|ex] L]; simpl.
  - rewrite (Hk a (log ++ L)), (Hk a L). simpl. by rewrite app_assoc.
  - done.
Qed.

Lemma uniform_get_lat_lon pc : uniform (get_lat_lon pc).
Proof. intros log. by rewrite !get_lat_lon_run. Qed.

Lemma uniform_mapM l : uniform (mapM get_lat_lon l).
Proof.
  induction l as [|pc l IH]; simpl.
  - intros log. unfold ret. simpl. by rewrite app_nil_r.
  - apply uniform_bind; [apply uniform_get_lat_lon|]. intros p.
    apply uniform_bind; [exact IH|]. intros ps log.
    unfold ret. simpl. by rewrite app_nil_r.
Qed.

Lemma uniform_load_sheet name : uniform (load_sheet name).
Proof.
  unfold load_sheet.
  apply uniform_bind; [apply uniform_lift|]. intros df.
  apply uniform_bind; [apply uniform_lift|]. intros dates.
  apply uniform_bind; [apply uniform_lift|]. intros df1.
  apply uniform_bind; [apply uniform_lift|]. intros postal.
  apply uniform_bind; [apply uniform_mapM|]. intros [|p ps].
  - intros log. unfold raise. simpl. by rewrite app_nil_r.
  - apply uniform_bind; [apply uniform_lift|]. intros df2.
    apply uniform_bind; [apply uniform_lift|]. intros df3 log.
    unfold ret. simpl. by rewrite app_nil_r.
Qed.

(** The requests of a run are those of the load. *)
Lemma update_dashboard_requests name s e log :
  (update_dashboard name s e log).2 = log ++ (load_sheet name []).2.
Proof.
  unfold update_dashboard, load_and_filter, bind.
  rewrite (uniform_load_sheet name log).
  destruct (load_sheet name []) as [[df|ex] L]; simpl; [|done].
  unfold lift. by destruct (date_filter s e df).
Qed.

(** The requests of a traversal are those of a first part of the list: all of
    it when the traversal returns. *)
Lemma mapM_get_lat_lon_prefix l :
  exists k,
    (mapM get_lat_lon l []).2 = map (fun pc => search_url (py_str pc)) (take k l) /\
    (forall ps, (mapM get_lat_lon l []).1 = Ok ps -> k = length l).
Proof.
  induction l as [|pc l (k & Hk & Hall)].
  - exists 0%nat. done.
  - assert (E : mapM get_lat_lon (pc :: l) [] =
                match geocode pc with
                | Ok p =>
                    (match (mapM get_lat_lon l []).1 with
                     | Ok ps => Ok (p :: ps)
                     | Raise ex => Raise ex
                     end,
                     search_url (py_str pc) :: (mapM get_lat_lon l []).2)
                | Raise ex => (Raise ex, [search_url (py_str pc)])
                end).
    { simpl. unfold bind at 1. rewrite get_lat_lon_run.
      destruct (geocode pc) as [p|ex]; simpl; [|done].
      unfold bind. rewrite (uniform_mapM l [search_url (py_str pc)]).
      by destruct (mapM get_lat_lon l []) as [[ps|ex] L]. }
    rewrite E. clear E.
    destruct (geocode pc) as [p|ex]; simpl.
    + exists (S k). rewrite Hk. split; [done|].
      destruct (mapM get_lat_lon l []).1 as [ps|ex]; [|discriminate].
      intros _ _. f_equal. by apply (Hall ps).
    + exists 1%nat. split; [done | discriminate].
Qed.

(** The postal codes [load_sheet] looks up are those of the sheet; what
    follows the lookups sends no request. *)
Lemma load_sheet_upto_lookups name log df0 :
  read_excel name = Ok df0 ->
  has_column df0 "Event Date" = true ->
  has_column df0 "Postal Code" = true ->
  exists k,
    load_sheet name log =
      bind (mapM get_lat_lon (map (cell_at "Postal Code") (rows df0))) k log /\
    (forall l, k [] l = (Raise (ValueError "not enough values to unpack (expected 2, got 0)"), l)) /\
    (forall ps l, (k ps l).2 = l).
Proof.
  intros E0 Hed Hpc.
  eexists. split; [|split].
  - unfold load_sheet. unfold bind at 1. unfold lift at 1. rewrite E0.
    unfold bind at 1. unfold lift at 1. rewrite (getitem_has _ _ Hed).
    rewrite setitem_coerce.
    unfold bind at 1. unfold lift at 1.
    unfold bind at 1. unfold lift at 1.
    rewrite getitem_has; cycle 1.
    { apply has_column_true. simpl. apply set_dtype_names. right.
      by apply has_column_true. }
    simpl rows. rewrite map_map.
    erewrite (map_ext (fun x => cell_at "Postal Code" _) (cell_at "Postal Code"));
      [reflexivity|].
    intros r. by rewrite cell_at_insert_ne.
  - intros l. reflexivity.
  - intros [|p ps] l; [reflexivity|].
    unfold bind, lift. destruct (setitem _ _ _ _); [|done].
    destruct (setitem _ _ _ _); done.
Qed.

(** C4, as the script has it.  Nothing is kept from one run of the callback
    to the next: whatever was requested before, and whatever the date range,
    a run sends the same requests afresh.  They are those of the load: one
    per row of the selected sheet, in row order and before the date filter,
    whether or not the date range keeps the row.  All rows are requested
    when the load returns; when it does not, the rows up to the failing one
    are, and none when the sheet cannot be read. *)
Theorem C4_one_request_per_sheet_row name s e :
  (forall log,
      (update_dashboard name s e log).2 = log ++ (load_sheet name []).2) /\
  (forall df0,
      read_excel name = Ok df0 ->
      (exists k, (load_sheet name []).2 = map request_of (take k (rows df0))) /\
      (forall log df log1,
          load_sheet name log = (Ok df, log1) ->
          (load_sheet name []).2 = map request_of (rows df0))) /\
  (forall ex, read_excel name = Raise ex -> (load_sheet name []).2 = []).
Proof.
  split; [intros log; apply update_dashboard_requests|].
  split; cycle 1.
  { intros ex E0. unfold load_sheet, bind, lift. by rewrite E0. }
  intros df0 E0. split.
  - destruct (has_column df0 "Event Date") eqn:Hed; cycle 1.
    { exists 0%nat. unfold load_sheet, bind, lift. rewrite E0.
      by rewrite (getitem_missing _ _ Hed). }
    destruct (has_column df0 "Postal Code") eqn:Hpc; cycle 1.
    { exists 0%nat. unfold load_sheet, bind, lift.
      rewrite E0, (getitem_has _ _ Hed), setitem_coerce.
      rewrite getitem_missing; [done|].
      apply not_true_is_false. intros H. apply has_column_true in H. simpl in H.
      apply set_dtype_names in H as [?|H]; [discriminate|].
      apply has_column_true in H. congruence. }
    destruct (load_sheet_upto_lookups name [] df0 E0 Hed Hpc) as (k & -> & _ & Hk).
    destruct (mapM_get_lat_lon_prefix (map (cell_at "Postal Code") (rows df0)))
      as (n & Hn & _).
    exists n. unfold bind.
    destruct (mapM get_lat_lon _ []) as [[ps|ex] L]; simpl in *.
    + rewrite Hk, Hn. rewrite firstn_map, map_map. done.
    + rewrite Hn. rewrite firstn_map, map_map. done.
  - intros log df log1 H.
    rewrite (uniform_load_sheet name log) in H.
    destruct (load_sheet name []) as [[df'|ex] L] eqn:E; simpl in H; [|discriminate].
    apply load_sheet_Ok in E as (df0' & pairs & E0' & _ & _ & _ & _ & _ & -> & _).
    rewrite E0 in E0'. by injection E0' as <-.
Qed.

(** *** What is rendered *)

Lemma render_Ok df out :
  render df = Ok out ->
  exists a n r,
    attendance_stats df = Ok (a, n, r) /\
    attendance_row out =
      [ mkCard "🎟️ Total Attendance" (Fmt a);
        mkCard "📉 Attrition Rate" (Fmt2f r "%") ] /\
    heatmap_layer out =
      map (fun r => mkFeature (cell_at "Longitude" r, cell_at "Latitude" r)) (rows df) /\
    column_options out = map (fun col => (col, col)) (columns df).*1 /\
    data_table out = "".
Proof.
  unfold render. intros H.
  apply rbind_Ok in H as ([[a n] r] & Est & H).
  inv_res H. injection H as <-. simpl.
  exists a, n, r. split; [done|]. split; [done|].
  repeat match goal with
         | E : getitem _ _ = Ok _ |- _ => apply getitem_Ok in E as [_ ->]
         end.
  rewrite zip_map_same, map_map. done.
Qed.

Lemma update_dashboard_Ok name s e log out log' :
  update_dashboard name s e log = (Ok out, log') ->
  exists df,
    load_and_filter name s e log = (Ok df, log') /\ render df = Ok out.
Proof.
  unfold update_dashboard. intros H.
  apply bind_Ok in H as (df & log1 & E & [Er ->]%lift_Ok). eauto.
Qed.

(** The rows rendered are rows of the loaded sheet, in their order. *)
Lemma load_and_filter_Ok name s e log df log' :
  load_and_filter name s e log = (Ok df, log') ->
  exists dfl,
    load_sheet name log = (Ok dfl, log') /\
    columns df = columns dfl /\
    (rows df = rows dfl \/
     exists ts te, rows df = List.filter (in_range ts te) (rows dfl)).
Proof.
  unfold load_and_filter. intros H.
  apply bind_Ok in H as (dfl & log1 & El & [Ef ->]%lift_Ok).
  exists dfl. split; [done|].
  destruct s as [s|]; [destruct e as [e|] |].
  - destruct (truthy (Some s) && truthy (Some e)) eqn:Et.
    + apply andb_true_iff in Et as [Hs He]. unfold truthy in Hs, He.
      apply negb_true_iff, String.eqb_neq in Hs, He.
      destruct (parse_datetime s) as [ts|] eqn:Ps; cycle 1.
      { unfold date_filter, truthy, to_datetime in Ef.
        apply String.eqb_neq in Hs, He. rewrite Hs, He, Ps in Ef. discriminate. }
      destruct (parse_datetime e) as [te|] eqn:Pe; cycle 1.
      { unfold date_filter, truthy, to_datetime in Ef.
        apply String.eqb_neq in Hs, He. rewrite Hs, He, Ps, Pe in Ef. discriminate. }
      destruct (decide (tz_aware s = dates_aware dfl)) as [As|As]; cycle 1.
      { rewrite (date_filter_loaded_mismatch name log dfl log1 s e ts te) in Ef
          by auto. discriminate. }
      destruct (decide (tz_aware e = dates_aware dfl)) as [Ae|Ae]; cycle 1.
      { rewrite (date_filter_loaded_mismatch name log dfl log1 s e ts te) in Ef
          by auto. discriminate. }
      rewrite (date_filter_loaded name log dfl log1 s e ts te) in Ef by done.
      injection Ef as <-. simpl. eauto.
    + unfold date_filter in Ef. rewrite Et in Ef. injection Ef as <-. auto.
  - injection Ef as <-. auto.
  - injection Ef as <-. auto.
Qed.

(** *** The attendance figures *)

Lemma series_sum_int l a :
  series_sum DInt64 (map attendance_of l) = Ok a ->
  a = TInt (wrap64 (hand_int_total l)) /\
  same_number (Fin (inject_Z (hand_int_total l))) (hand_total l).
Proof.
  unfold series_sum. intros H. apply rbind_Ok in H as (z & Hz & [= <-]).
  apply int_sum_from_hand in Hz as (H1 & H2 & H3). split; [|done].
  rewrite Z.add_0_l in H1. rewrite <- H1. rewrite wrap64_id; [done|].
  apply H2. unfold int64. lia.
Qed.

Lemma series_sum_float l a :
  series_sum DNumeric (map attendance_of l) = Ok a ->
  exists x, a = TFloat x /\ same_number x (hand_total l).
Proof.
  unfold series_sum. intros H. apply rbind_Ok in H as (x & Hx & [= <-]).
  exists x. split; [done|]. apply float_sum_from_hand in Hx.
  eapply same_number_trans; [exact Hx | apply fadd_0_l].
Qed.

Lemma series_sum_raises dt l ex : series_sum dt l = Raise ex -> ex = TypeError.
Proof.
  unfold series_sum. destruct dt.
  - destruct (int_sum_from 0 l) eqn:E; simpl; [discriminate|].
    intros [= <-]. by apply int_sum_from_raises in E.
  - destruct (float_sum_from (Fin 0) l) eqn:E; simpl; [discriminate|].
    intros [= <-]. by apply float_sum_from_raises in E.
  - destruct (object_sum l); [discriminate | by intros [= <-]].
  - destruct (object_sum l); [discriminate | by intros [= <-]].
  - destruct (object_sum l); [discriminate | by intros [= <-]].
Qed.

(** The rate the script computes from the registrants and the sum. *)
Lemma attrition_pos n a :
  (0 < n)%Z ->
  attrition n a =
    match a with
    | TInt t => Ok (hand_rate n (Fin (inject_Z (wrap64 (n - t)))))
    | TFloat x => Ok (hand_rate n (fsub (Fin (inject_Z n)) x))
    | TObject o => match object_attrition n o with
                   | Some r => Ok r
                   | None => Raise TypeError
                   end
    end.
Proof.
  intros Hn. unfold attrition, hand_rate.
  destruct (Z.eqb_spec n 0) as [?|_]; [lia|].
  destruct a; [| |done]; by rewrite truediv_pos.
Qed.

Lemma attendance_stats_unfold df :
  has_column df "Attendance" = true ->
  attendance_stats df =
    (total <- series_sum (dtype_at df "Attendance") (map attendance_of (rows df)) ;;
     rate <- (if (hand_registrants (rows df) >? 0)%Z
              then attrition (hand_registrants (rows df)) total
              else Ok (Fin 0)) ;;
     Ok (total, hand_registrants (rows df), rate))%res.
Proof.
  intros Hcol. unfold attendance_stats. rewrite (getitem_has _ _ Hcol).
  cbn [rbind].
  change (map (cell_at "Attendance") (rows df)) with (map attendance_of (rows df)).
  by rewrite series_count_hand.
Qed.

Lemma attendance_stats_Ok df a n r :
  attendance_stats df = Ok (a, n, r) ->
  has_column df "Attendance" = true /\
  series_sum (dtype_at df "Attendance") (map attendance_of (rows df)) = Ok a /\
  n = hand_registrants (rows df) /\
  (if (n >? 0)%Z then attrition n a = Ok r else r = Fin 0).
Proof.
  intros H.
  assert (Hcol : has_column df "Attendance" = true).
  { unfold attendance_stats in H. apply rbind_Ok in H as (l & Hl & _).
    by apply getitem_Ok in Hl as [? _]. }
  split; [done|]. rewrite (attendance_stats_unfold _ Hcol) in H.
  apply rbind_Ok in H as (a' & Ha & H).
  apply rbind_Ok in H as (r' & Hr & [= <- <- <-]).
  split; [done|]. split; [done|].
  destruct (hand_registrants (rows df) >? 0)%Z; [done | by injection Hr].
Qed.

(** The division of line 152 is not reached with a zero divisor. *)
Lemma attendance_stats_no_division df :
  attendance_stats df <> Raise ZeroDivisionError.
Proof.
  destruct (has_column df "Attendance") eqn:Hcol; cycle 1.
  { unfold attendance_stats. by rewrite (getitem_missing _ _ Hcol). }
  rewrite (attendance_stats_unfold _ Hcol).
  destruct (series_sum _ _) as [a|ex] eqn:Es; simpl.
  - destruct (Z.gtb_spec (hand_registrants (rows df)) 0) as [Hn|_]; [|done].
    rewrite attrition_pos by done.
    destruct a; simpl; try done. by destruct (object_attrition _ _).
  - apply series_sum_raises in Es as ->. done.
Qed.

(** The figures of line 150 to 152 against those computed by hand. *)
Lemma attendance_stats_by_hand df total registrants rate :
  attendance_stats df = Ok (total, registrants, rate) ->
  registrants = hand_registrants (rows df) /\
  match dtype_at df "Attendance" with
  | DInt64 =>
      let sum := hand_int_total (rows df) in
      total = TInt (wrap64 sum) /\
      rate = hand_rate registrants
               (Fin (inject_Z (wrap64 (registrants - wrap64 sum)))) /\
      (int64 sum -> int64 (registrants - sum) ->
       total = TInt sum /\
       same_number (Fin (inject_Z sum)) (hand_total (rows df)) /\
       same_number rate (hand_attrition (rows df)))
  | DNumeric =>
      exists x, total = TFloat x /\
                same_number x (hand_total (rows df)) /\
                same_number rate (hand_attrition (rows df))
  | _ =>
      exists o, total = TObject o /\
                object_sum (map attendance_of (rows df)) = Some o /\
                if (registrants =? 0)%Z then rate = Fin 0
                else object_attrition registrants o = Some rate
  end.
Proof.
  intros Est. rename total into a, registrants into n, rate into r.
  apply attendance_stats_Ok in Est as Hst. destruct Hst as (_ & Ha & Hn & Hr).
  split; [done|].
  assert (Hr' : r = match a with
                    | TInt t => hand_rate n (Fin (inject_Z (wrap64 (n - t))))
                    | TFloat x => hand_rate n (fsub (Fin (inject_Z n)) x)
                    | TObject _ => r
                    end).
  { destruct (Z.gtb_spec n 0) as [Hpos|Hle].
    - rewrite attrition_pos in Hr by done.
      destruct a; [by injection Hr | by injection Hr | done].
    - pose proof (hand_registrants_nonneg (rows df)).
      assert (n = 0%Z) as -> by lia. subst r. by destruct a. }
  assert (Hobj : series_sum DObject (map attendance_of (rows df)) = Ok a ->
             exists o, a = TObject o /\
                       object_sum (map attendance_of (rows df)) = Some o /\
                       if (n =? 0)%Z then r = Fin 0
                       else object_attrition n o = Some r).
  { intros Hs. unfold series_sum in Hs.
    destruct (object_sum _) as [o|]; [|done]. injection Hs as <-.
    exists o. split; [done|]. split; [done|].
    pose proof (hand_registrants_nonneg (rows df)).
    destruct (Z.eqb_spec n 0) as [->|Hne]; [done|].
    destruct (Z.gtb_spec n 0) as [Hpos|Hle]; [|lia].
    rewrite attrition_pos in Hr by done.
    destruct (object_attrition n o); [by injection Hr as -> | done]. }
  destruct (dtype_at df "Attendance").
  - apply series_sum_int in Ha as [-> Hsame]. cbn zeta.
    split; [done|]. split; [exact Hr'|].
    intros Hs Hd. rewrite (wrap64_id _ Hs). split; [done|]. split; [done|].
    rewrite Hr'. rewrite (wrap64_id _ Hs), (wrap64_id _ Hd).
    unfold hand_attrition. rewrite <- Hn. apply hand_rate_same.
    eapply same_number_trans; [|apply fsub_same; [apply same_number_refl | exact Hsame]].
    simpl. unfold Zminus. rewrite inject_Z_plus, inject_Z_opp. done.
  - apply series_sum_float in Ha as (x & -> & Hx). exists x.
    split; [done|]. split; [done|]. rewrite Hr'.
    unfold hand_attrition. rewrite <- Hn. apply hand_rate_same.
    by apply fsub_same; [apply same_number_refl|].
  - by apply Hobj.
  - by apply Hobj.
  - by apply Hobj.
Qed.


(** C8.  A record set without registrants shows an attrition rate of 0,
    whatever the sum of its attendance column is: 0 for a numeric column.
    The division is never reached with a zero divisor: the statistics never
    end in a division by zero. *)
Theorem C8_no_registrants_no_division :
  (forall df,
      has_column df "Attendance" = true ->
      hand_registrants (rows df) = 0%Z ->
      attendance_stats df =
        (total <- series_sum (dtype_at df "Attendance")
                    (map attendance_of (rows df)) ;;
         Ok (total, 0%Z, Fin 0))%res /\
      (forall zero,
          zero_of (dtype_at df "Attendance") = Some zero ->
          attendance_stats df = Ok (zero, 0%Z, Fin 0))) /\
  (forall df, attendance_stats df <> Raise ZeroDivisionError) /\
  (forall name s e log df log' out,
      load_and_filter name s e log = (Ok df, log') ->
      hand_registrants (rows df) = 0%Z ->
      update_dashboard name s e log = (Ok out, log') ->
      exists total,
        attendance_row out =
          [ mkCard "🎟️ Total Attendance" (Fmt total);
            mkCard "📉 Attrition Rate" (Fmt2f (Fin 0) "%") ] /\
        (forall zero,
            zero_of (dtype_at df "Attendance") = Some zero -> total = zero)).
Proof.
  assert (G : forall df,
             has_column df "Attendance" = true ->
             hand_registrants (rows df) = 0%Z ->
             attendance_stats df =
               (total <- series_sum (dtype_at df "Attendance")
                           (map attendance_of (rows df)) ;;
                Ok (total, 0%Z, Fin 0))%res /\
             (forall zero,
                 zero_of (dtype_at df "Attendance") = Some zero ->
                 attendance_stats df = Ok (zero, 0%Z, Fin 0))).
  { intros df Hcol H0.
    assert (E : attendance_stats df =
                (total <- series_sum (dtype_at df "Attendance")
                            (map attendance_of (rows df)) ;;
                 Ok (total, 0%Z, Fin 0))%res).
    { rewrite (attendance_stats_unfold _ Hcol), H0. done. }
    split; [exact E|]. intros zero Hz. rewrite E.
    apply all_null_no_registrants in H0.
    unfold series_sum.
    destruct (dtype_at df "Attendance"); simpl in Hz; try discriminate;
      injection Hz as <-.
    - by rewrite int_sum_from_nulls.
    - by rewrite float_sum_from_nulls. }
  split; [exact G|]. split; [exact attendance_stats_no_division|].
  intros name s e log df log' out El H0 H.
  apply update_dashboard_Ok in H as (df' & El' & Er).
  rewrite El in El'. injection El' as <-.
  apply render_Ok in Er as (a & n & r & Est & Hrow & _).
  apply attendance_stats_Ok in Est as Hst. destruct Hst as (Hcol & _).
  destruct (G df Hcol H0) as [E Hzero].
  exists a. split.
  - rewrite E in Est. apply rbind_Ok in Est as (a' & _ & [= _ _ <-]). exact Hrow.
  - intros zero Hz. rewrite (Hzero zero Hz) in Est. by injection Est.
Qed.

(** C7.  The data-table output is the empty string whenever the callback
    returns, and what is selected in the column multi-select changes nothing
    of what the callback does. *)
Theorem C7_table_empty_and_multiselect_inert :
  (forall name s e log,
      match (update_dashboard name s e log).1 with
      | Ok out => data_table out = ""
      | Raise _ => True
      end) /\
  (forall page cols log,
      callback {| sheet_selector_value := sheet_selector_value page;
                  date_filter_start_date := date_filter_start_date page;
                  date_filter_end_date := date_filter_end_date page;
                  data_filter_value := cols |} log
      = callback page log).
Proof.
  split.
  - intros name s e log.
    destruct (update_dashboard name s e log) as [[out|ex] log'] eqn:E; simpl; [|done].
    apply update_dashboard_Ok in E as (df & _ & Er).
    by apply render_Ok in Er as (a & n & r & _ & _ & _ & _ & Ht).
  - intros page cols log. reflexivity.
Qed.

(** The columns of the rendered frame are those of the sheet and the three
    columns [load_sheet] sets. *)
Lemma load_and_filter_columns name s e log df log' df0 col :
  read_excel name = Ok df0 ->
  load_and_filter name s e log = (Ok df, log') ->
  col <> "Longitude" -> col <> "Latitude" -> col <> "Event Date" ->
  has_column df col = has_column df0 col.
Proof.
  intros E0 H H1 H2 H3.
  apply load_and_filter_Ok in H as (dfl & El & Hc & _).
  apply load_sheet_Ok in El as (df0' & pairs & E0' & _ & _ & _ & _ & Hcl & _).
  rewrite E0 in E0'. injection E0' as <-.
  unfold has_column. apply bool_decide_ext. rewrite Hc, Hcl.
  rewrite !set_dtype_names. tauto.
Qed.

(** C6.  Nothing checks the columns of the sheet before they are used.  A
    sheet without the attendance column is loaded and geocoded in full, and
    the callback then ends in a KeyError; a sheet without the age column
    ends in an exception as well, the KeyError on the age average once the
    attendance figures are computed.  The exception is the callback's whole
    result: no output is returned. *)
Theorem C6_missing_column_uncaught name s e log df0 df log' :
  read_excel name = Ok df0 ->
  load_and_filter name s e log = (Ok df, log') ->
  (has_column df0 "Attendance" = false ->
   update_dashboard name s e log = (Raise (KeyError "Attendance"), log')) /\
  (has_column df0 "Age" = false ->
   exists ex,
     update_dashboard name s e log = (Raise ex, log') /\
     (forall st, attendance_stats df = Ok st -> ex = KeyError "Age")).
Proof.
  intros E0 El. split.
  - intros Hcol.
    rewrite <- (load_and_filter_columns name s e log df log' df0) in Hcol by done.
    unfold update_dashboard. unfold bind at 1. rewrite El.
    unfold lift, render, attendance_stats.
    by rewrite (getitem_missing _ _ Hcol).
  - intros Hcol.
    rewrite <- (load_and_filter_columns name s e log df log' df0) in Hcol by done.
    unfold update_dashboard. unfold bind at 1. rewrite El.
    unfold lift, render.
    destruct (attendance_stats df) as [[[a n] r]|ex] eqn:Est; simpl.
    + rewrite (series_get_mean_missing _ _ Hcol). simpl.
      exists (KeyError "Age"). done.
    + exists ex. split; [done | discriminate].
Qed.

Lemma loaded_rows_found name log dfl log' r :
  load_sheet name log = (Ok dfl, log') ->
  In r (rows dfl) -> coordinates_as_found r r.
Proof.
  intros H Hin.
  apply load_sheet_Ok in H as (df0 & pairs & _ & _ & _ & HF & Hr & _).
  rewrite Hr in Hin.
  destruct (In_zip_with_Forall2 _ _ _ _ _ HF Hin) as (r0 & p & Hp & ->).
  apply (loaded_row_coordinates (date_column df0)) in Hp.
  unfold coordinates_as_found in *. unfold request_of in *.
  by rewrite (loaded_row_other (date_column df0)).
Qed.

(** C10.  The map layer holds one point feature per row of the filtered
    record set, in row order, with the row's longitude and latitude.  A row
    whose lookup found nothing is not left out: its feature has the two
    absent coordinates. *)
Theorem C10_one_feature_per_row name s e log out log' :
  update_dashboard name s e log = (Ok out, log') ->
  exists df,
    load_and_filter name s e log = (Ok df, log') /\
    heatmap_layer out =
      map (fun r => mkFeature (cell_at "Longitude" r, cell_at "Latitude" r)) (rows df) /\
    length (heatmap_layer out) = length (rows df) /\
    (forall (i : nat) r resp,
        rows df !! i = Some r ->
        requests_get_json (request_of r) = Ok resp ->
        (found resp <= 0)%Z ->
        heatmap_layer out !! i = Some (mkFeature (CNull, CNull))).
Proof.
  intros H. apply update_dashboard_Ok in H as (df & El & Er).
  apply render_Ok in Er as (a & n & r & _ & _ & Hh & _).
  exists df. split; [done|]. split; [done|].
  split; [by rewrite Hh, length_map|].
  intros i row resp Hi Hresp Hfound. rewrite Hh.
  rewrite lookup_map, Hi. simpl.
  apply load_and_filter_Ok in El as (dfl & Hl & _ & Hrows).
  assert (Hin : In row (rows dfl)).
  { apply list_elem_of_lookup_2, list_elem_of_In in Hi.
    destruct Hrows as [<- | (ts & te & Hf)]; [done|].
    rewrite Hf in Hi. by apply filter_In in Hi as [? _]. }
  destruct (loaded_rows_found _ _ _ _ _ Hl Hin) as (resp' & Hresp' & Hc).
  rewrite Hresp in Hresp'. injection Hresp' as <-.
  destruct (Z.gtb_spec (found resp) 0) as [?|_]; [lia|].
  destruct Hc as [-> ->]. done.
Qed.

End Properties.

(** ** The statements on the fixture *)


Example january_by_hand :
  same_number (hand_total [Fixture.row1; Fixture.row2]) (Fin 1) /\
  hand_registrants [Fixture.row1; Fixture.row2] = 2%Z /\
  same_number (hand_attrition [Fixture.row1; Fixture.row2]) (Fin 50).
Proof. vm_compute. repeat split; reflexivity. Qed.


Example survey_loaded :
  Fixture.load_sheet "Survey" [] = (Ok Fixture.loaded, Fixture.all_log) /\
  map (cell_at "Event Date") (rows Fixture.loaded) =
    [CDate Fixture.jan01; CDate Fixture.jan31; CDate Fixture.feb10; CNull] /\
  map (cell_at "Latitude") (rows Fixture.loaded) =
    [CNum (137 # 100); CNull; CNum (137 # 100); CNum (130 # 100)] /\
  map (cell_at "Longitude") (rows Fixture.loaded) =
    [CNum (10385 # 100); CNull; CNum (10385 # 100); CNum (10383 # 100)].
Proof. vm_compute. repeat split; reflexivity. Qed.


(** A latitude the service gives as "nan" is read by [float] without an
    error, and the row's latitude is then null. *)
Example nan_latitude :
  get_lat_lon Edge.nan_service Fixture.py_str Fixture.py_float (CStr "560123") []
    = (Ok (Some NaN, Some (Fin (10385 # 100))), [search_url "560123"]) /\
  coord_cell (Some NaN) = CNull.
Proof. vm_compute. split; reflexivity. Qed.

Lemma C3_witness :
  let kept := {| columns := columns Fixture.loaded;
                 rows := List.filter (in_range Fixture.jan01 Fixture.jan31)
                           (rows Fixture.loaded) |} in
  Fixture.load_and_filter "Survey" (Some "2024-01-01") (Some "2024-01-31") []
    = (Ok kept, Fixture.january_log) /\
  Fixture.update_dashboard "Survey" (Some "2024-01-01") (Some "2024-01-31") []
    = (render Fixture.object_sum Fixture.object_attrition kept,
       Fixture.january_log) /\
  (forall r, In r (rows kept) <->
             In r (rows Fixture.loaded) /\
             exists t, cell_at "Event Date" r = CDate t /\
                       (Fixture.jan01 <= t <= Fixture.jan31)%Z).
Proof.
  refine (proj1 (C3_date_range_inclusive Fixture.read_excel Fixture.requests_get_json
           Fixture.py_str Fixture.py_float Fixture.parse_datetime Fixture.tz_aware
           Fixture.datetime_in_column Fixture.column_tz_aware Fixture.object_sum
           Fixture.object_attrition "Survey" "2024-01-01" "2024-01-31"
                   Fixture.jan01 Fixture.jan31 [] Fixture.loaded
                   Fixture.january_log _ _ _ _ _) _ _).
  - discriminate.
  - discriminate.
  - reflexivity.
  - reflexivity.
  - vm_compute. reflexivity.
  - reflexivity.
  - reflexivity.
Defined.

Example january_keeps_both_ends :
  map (cell_at "ID")
    (List.filter (in_range Fixture.jan01 Fixture.jan31) (rows Fixture.loaded))
  = [Fixture.num 1; Fixture.num 2].
Proof. vm_compute. reflexivity. Qed.

(** C3 as the spec has it fails on the fixture for a start date that carries
    a UTC offset: the date is read as the first of January, two rows of the
    sheet have their date in the range, and the callback keeps none of them:
    it ends in a TypeError at the comparison, after the sheet is loaded. *)
Lemma C3_counterexample :
  Fixture.parse_datetime "2024-01-01T00:00:00+00:00" = Some Fixture.jan01 /\
  Fixture.parse_datetime "2024-01-31" = Some Fixture.jan31 /\
  map (cell_at "ID")
    (List.filter (in_range Fixture.jan01 Fixture.jan31) (rows Fixture.loaded))
    = [Fixture.num 1; Fixture.num 2] /\
  Fixture.update_dashboard "Survey" (Some "2024-01-01T00:00:00+00:00")
    (Some "2024-01-31") [] = (Raise TypeError, Fixture.all_log).
Proof. vm_compute. repeat split; reflexivity. Qed.

(** The dates of a column are read in one format, that of its first string:
    a date written in another format becomes NaT at the load, and no range
    keeps its row. *)
Example two_formats_in_one_column :
  map (to_datetime_coerce Fixture.datetime_in_column (date_column Edge.two_formats))
    (date_column Edge.two_formats)
    = [CDate Fixture.jan01; CNull; CDate Fixture.feb10; CNull] /\
  Fixture.parse_datetime "01/31/2024" = Some Fixture.jan31 /\
  match (Edge.load_and_filter "TwoFormats" (Some "2024-01-01")
           (Some "01/31/2024") []).1 with
  | Ok df => map (cell_at "ID") (rows df) = [Fixture.num 1]
  | Raise _ => False
  end.
Proof. vm_compute. repeat split; reflexivity. Qed.

Lemma C4_witness :
  (Fixture.update_dashboard "Survey" (Some "2024-01-01") (Some "2024-01-31")
     Fixture.all_log).2
  = Fixture.all_log ++ (Fixture.load_sheet "Survey" []).2 /\
  (Fixture.load_sheet "Survey" []).2
  = map (request_of Fixture.py_str) (rows Fixture.survey).
Proof.
  destruct (C4_one_request_per_sheet_row Fixture.read_excel Fixture.requests_get_json
           Fixture.py_str Fixture.py_float Fixture.parse_datetime Fixture.tz_aware
           Fixture.datetime_in_column Fixture.column_tz_aware Fixture.object_sum
           Fixture.object_attrition "Survey" (Some "2024-01-01")
              (Some "2024-01-31")) as (Hrun & Hload & _).
  split; [apply Hrun|].
  apply (proj2 (Hload Fixture.survey eq_refl) [] Fixture.loaded Fixture.all_log).
  vm_compute. reflexivity.
Defined.

(** C4 as the spec has it fails on the fixture: the January range shows two
    rows, and the run that shows them sent four requests, one for each row
    of the sheet, two of them for the same postal code. *)
Lemma C4_counterexample :
  Fixture.january_run = (Ok Fixture.january_out, Fixture.january_log) /\
  (match (Fixture.load_and_filter "Survey" (Some "2024-01-01")
            (Some "2024-01-31") []).1 with
   | Ok df => Some (length (rows df))
   | Raise _ => None
   end) = Some 2%nat /\
  length (heatmap_layer Fixture.january_out) = 2%nat /\
  Fixture.january_log =
    [ search_url "560123"; search_url "999999"; search_url "560123";
      search_url "238801" ] /\
  Nat.eqb (length Fixture.january_log) 2 = false.
Proof. vm_compute. repeat split; reflexivity. Qed.

(** A lookup that fails ends the load: the rows after it are not requested. *)
Example failing_lookup_ends_the_requests :
  (update_dashboard Fixture.read_excel Edge.requests_get_json Fixture.py_str
     Fixture.py_float Fixture.parse_datetime Fixture.tz_aware
     Fixture.datetime_in_column Fixture.column_tz_aware Fixture.object_sum
     Fixture.object_attrition "Survey" None None [])
  = (Raise (RequestException "timeout"),
     map (request_of Fixture.py_str) (take 2 (rows Fixture.survey))).
Proof. vm_compute. reflexivity. Qed.

Lemma C5_witness :
  exists df,
    Fixture.load_sheet "Survey" []
      = (Ok df, [] ++ map (request_of Fixture.py_str) (rows Fixture.survey)) /\
    Forall2 (fun r0 r =>
               cell_at "Event Date" r =
                 to_datetime_coerce Fixture.datetime_in_column
                   (date_column Fixture.survey) (cell_at "Event Date" r0) /\
               (unparsable Fixture.datetime_in_column
                  (date_column Fixture.survey) (cell_at "Event Date" r0) ->
                cell_at "Event Date" r = CNull))
      (rows Fixture.survey) (rows df).
Proof.
  apply (C5_malformed_dates_coerced Fixture.read_excel Fixture.requests_get_json
           Fixture.py_str Fixture.py_float Fixture.datetime_in_column
           Fixture.column_tz_aware "Survey" [] Fixture.survey).
  - reflexivity.
  - vm_compute. reflexivity.
  - vm_compute. reflexivity.
  - discriminate.
  - unfold Fixture.survey. simpl rows.
    repeat (constructor; [eexists; vm_compute; reflexivity|]).
    constructor.
Defined.

Example soon_is_unparsable :
  unparsable Fixture.datetime_in_column (date_column Fixture.survey)
    (cell_at "Event Date" Fixture.row4).
Proof. vm_compute. reflexivity. Qed.

Lemma C6_witness :
  Fixture.update_dashboard "NoAttendance" None None []
    = (Raise (KeyError "Attendance"), Fixture.all_log) /\
  exists ex,
    Fixture.update_dashboard "NoAge" (Some "2024-01-01") (Some "2024-01-31") []
      = (Raise ex, Fixture.all_log) /\
    (forall st,
        attendance_stats Fixture.object_sum Fixture.object_attrition
          {| columns := columns Fixture.loaded_no_age;
             rows := List.filter (in_range Fixture.jan01 Fixture.jan31)
                       (rows Fixture.loaded_no_age) |} = Ok st ->
        ex = KeyError "Age").
Proof.
  split.
  - apply (C6_missing_column_uncaught Fixture.read_excel Fixture.requests_get_json
           Fixture.py_str Fixture.py_float Fixture.parse_datetime Fixture.tz_aware
           Fixture.datetime_in_column Fixture.column_tz_aware Fixture.object_sum
           Fixture.object_attrition "NoAttendance" None None []
             (Fixture.drop_column "Attendance" Fixture.survey)
             Fixture.loaded_no_attendance Fixture.all_log).
    + reflexivity.
    + vm_compute. reflexivity.
    + vm_compute. reflexivity.
  - apply (C6_missing_column_uncaught Fixture.read_excel Fixture.requests_get_json
           Fixture.py_str Fixture.py_float Fixture.parse_datetime Fixture.tz_aware
           Fixture.datetime_in_column Fixture.column_tz_aware Fixture.object_sum
           Fixture.object_attrition "NoAge" (Some "2024-01-01")
             (Some "2024-01-31") []
             (Fixture.drop_column "Age" Fixture.survey)).
    + reflexivity.
    + vm_compute. reflexivity.
    + vm_compute. reflexivity.
Defined.

Example no_age_raises_key_error :
  Fixture.update_dashboard "NoAge" None None []
    = (Raise (KeyError "Age"), Fixture.all_log).
Proof. vm_compute. reflexivity. Qed.

Lemma C8_witness :
  exists total,
    attendance_row Fixture.nobody_out =
      [ mkCard "🎟️ Total Attendance" (Fmt total);
        mkCard "📉 Attrition Rate" (Fmt2f (Fin 0) "%") ] /\
    (forall zero,
        zero_of (dtype_at {| columns := columns Fixture.loaded; rows := [] |}
                   "Attendance") = Some zero ->
        total = zero).
Proof.
  apply (proj2 (proj2 (C8_no_registrants_no_division Fixture.read_excel Fixture.requests_get_json
           Fixture.py_str Fixture.py_float Fixture.parse_datetime Fixture.tz_aware
           Fixture.datetime_in_column Fixture.column_tz_aware Fixture.object_sum
           Fixture.object_attrition))
           "Survey" (Some "2024-01-31") (Some "2024-01-01") []
           {| columns := columns Fixture.loaded; rows := [] |}
           Fixture.all_log Fixture.nobody_out).
  - vm_compute. reflexivity.
  - reflexivity.
  - vm_compute. reflexivity.
Defined.

Example nobody_cards :
  map body (attendance_row Fixture.nobody_out) =
    [ Fmt (TFloat (Fin 0)); Fmt2f (Fin 0) "%" ].
Proof. vm_compute. reflexivity. Qed.

(** The sum of a text column that holds no value is the library's, an empty
    text here; the rate is 0 all the same. *)
Example nobody_in_words :
  match (Edge.update_dashboard "InWords" (Some "2024-01-31") (Some "2024-01-01") []).1 with
  | Ok out =>
      map body (attendance_row out) = [ Fmt (TObject (CStr "")); Fmt2f (Fin 0) "%" ]
  | Raise _ => False
  end.
Proof. vm_compute. reflexivity. Qed.

Lemma C10_witness :
  exists df,
    Fixture.load_and_filter "Survey" (Some "2024-01-01") (Some "2024-01-31") []
      = (Ok df, Fixture.january_log) /\
    heatmap_layer Fixture.january_out =
      map (fun r => mkFeature (cell_at "Longitude" r, cell_at "Latitude" r)) (rows df) /\
    length (heatmap_layer Fixture.january_out) = length (rows df) /\
    (forall (i : nat) r resp,
        rows df !! i = Some r ->
        Fixture.requests_get_json (request_of Fixture.py_str r) = Ok resp ->
        (found resp <= 0)%Z ->
        heatmap_layer Fixture.january_out !! i = Some (mkFeature (CNull, CNull))).
Proof.
  apply (C10_one_feature_per_row Fixture.read_excel Fixture.requests_get_json
           Fixture.py_str Fixture.py_float Fixture.parse_datetime Fixture.tz_aware
           Fixture.datetime_in_column Fixture.column_tz_aware Fixture.object_sum
           Fixture.object_attrition "Survey" (Some "2024-01-01")
           (Some "2024-01-31") [] Fixture.january_out Fixture.january_log).
  vm_compute. reflexivity.
Defined.

Example january_features :
  heatmap_layer Fixture.january_out =
    [ mkFeature (CNum (10385 # 100), CNum (137 # 100));
      mkFeature (CNull, CNull) ].
Proof. vm_compute. reflexivity. Qed.

Example whole_sheet_without_dates :
  Fixture.all_run = (Ok Fixture.all_out, Fixture.all_log) /\
  length (heatmap_layer Fixture.all_out) = 4%nat /\
  Fixture.update_dashboard "Survey" (Some "2024-01-01") None [] = Fixture.all_run /\
  Fixture.update_dashboard "Survey" (Some "") (Some "2024-01-31") [] = Fixture.all_run.
Proof. vm_compute. repeat split; reflexivity. Qed.

Example multiselect_is_not_an_input :
  Fixture.callback (mkPage "Survey" None None ["Age"; "Gender"]) []
  = Fixture.callback (mkPage "Survey" None None []) [].
Proof. reflexivity. Qed.

(** ** Further behaviour of the script *)

From Stdlib Require Import Lqa.

Section Behaviour.

Variable read_excel : string -> result DataFrame.
Variable requests_get_json : string -> result Response.
Variable py_str : cell -> string.
Variable py_float : string -> result xfloat.
Variable parse_datetime : string -> option Z.
Variable tz_aware : string -> bool.
Variable datetime_in_column : list cell -> cell -> option Z.
Variable column_tz_aware : list cell -> bool.
Variable object_sum : list cell -> option cell.
Variable object_attrition : Z -> cell -> option xfloat.

Local Abbreviation get_lat_lon := (get_lat_lon requests_get_json py_str py_float).
Local Abbreviation to_datetime_coerce := (to_datetime_coerce datetime_in_column).
Local Abbreviation datetime_dtype := (datetime_dtype column_tz_aware).
Local Abbreviation to_datetime := (to_datetime parse_datetime tz_aware).
Local Abbreviation load_sheet :=
  (load_sheet read_excel requests_get_json py_str py_float datetime_in_column
     column_tz_aware).
Local Abbreviation date_filter :=
  (date_filter parse_datetime tz_aware datetime_in_column column_tz_aware).
Local Abbreviation series_sum := (series_sum object_sum).
Local Abbreviation attrition := (attrition object_attrition).
Local Abbreviation attendance_stats :=
  (attendance_stats object_sum object_attrition).
Local Abbreviation render := (render object_sum object_attrition).
Local Abbreviation load_and_filter :=
  (load_and_filter read_excel requests_get_json py_str py_float parse_datetime
     tz_aware datetime_in_column column_tz_aware).
Local Abbreviation update_dashboard :=
  (update_dashboard read_excel requests_get_json py_str py_float parse_datetime
     tz_aware datetime_in_column column_tz_aware object_sum object_attrition).
Local Abbreviation callback :=
  (callback read_excel requests_get_json py_str py_float parse_datetime
     tz_aware datetime_in_column column_tz_aware object_sum object_attrition).
Local Abbreviation request_of := (request_of py_str).
Local Abbreviation geocode := (geocode requests_get_json py_str py_float).
Local Abbreviation loaded_row := (loaded_row datetime_in_column).
Local Abbreviation coordinates_as_found :=
  (coordinates_as_found requests_get_json py_str py_float).
Local Abbreviation unparsable := (unparsable datetime_in_column).
Local Abbreviation dates_aware := (dates_aware column_tz_aware).
Local Abbreviation converted := (converted datetime_in_column column_tz_aware).

(** *** Failures of the load *)

Lemma update_dashboard_load_raise name s e log ex log' :
  load_sheet name log = (Raise ex, log') ->
  update_dashboard name s e log = (Raise ex, log').
Proof.
  intros H. unfold update_dashboard, load_and_filter, bind. by rewrite H.
Qed.

Lemma mapM_get_lat_lon_raise l1 pc l2 log ex :
  Forall (fun pc => exists p, geocode pc = Ok p) l1 ->
  geocode pc = Raise ex ->
  mapM get_lat_lon (l1 ++ pc :: l2) log =
    (Raise ex, log ++ map (fun pc => search_url (py_str pc)) (l1 ++ [pc])).
Proof.
  intros HF Hex. revert log.
  induction HF as [|pc1 l1 [p Hp] _ IH]; intros log; simpl.
  - unfold bind at 1. by rewrite get_lat_lon_run, Hex.
  - unfold bind at 1. rewrite get_lat_lon_run, Hp.
    unfold bind at 1. rewrite IH. by rewrite <- app_assoc.
Qed.

(** X1.  A worksheet without any row cannot be loaded: the two coordinate
    columns are unpacked from nothing, which is a ValueError.  No request is
    sent, and the callback ends in that exception for every date range. *)
Theorem X1_sheet_without_rows name log df0 :
  read_excel name = Ok df0 ->
  has_column df0 "Event Date" = true ->
  has_column df0 "Postal Code" = true ->
  rows df0 = [] ->
  load_sheet name log =
    (Raise (ValueError "not enough values to unpack (expected 2, got 0)"), log) /\
  (forall s e,
      update_dashboard name s e log =
        (Raise (ValueError "not enough values to unpack (expected 2, got 0)"), log)).
Proof.
  intros E0 Hed Hpc Hrows.
  assert (E : load_sheet name log =
              (Raise (ValueError "not enough values to unpack (expected 2, got 0)"), log)).
  { destruct (load_sheet_upto_lookups read_excel requests_get_json py_str py_float
              datetime_in_column column_tz_aware name log df0 E0 Hed Hpc)
      as (k & -> & Hk & _).
    rewrite Hrows. simpl. unfold bind, ret. apply Hk. }
  split; [exact E|]. intros s e. by apply update_dashboard_load_raise.
Qed.

(** X2.  The two columns [load_sheet] reads are not checked beforehand: a
    sheet without the date column ends the callback in a KeyError on it, a
    sheet with dates and without postal codes in a KeyError on those.  In
    both cases no request has been sent. *)
Theorem X2_load_needs_date_and_postal_code name s e log df0 :
  read_excel name = Ok df0 ->
  (has_column df0 "Event Date" = false ->
   update_dashboard name s e log = (Raise (KeyError "Event Date"), log)) /\
  (has_column df0 "Event Date" = true ->
   has_column df0 "Postal Code" = false ->
   update_dashboard name s e log = (Raise (KeyError "Postal Code"), log)).
Proof.
  intros E0. split.
  - intros Hed. apply update_dashboard_load_raise.
    unfold load_sheet, bind, lift. rewrite E0.
    by rewrite (getitem_missing _ _ Hed).
  - intros Hed Hpc. apply update_dashboard_load_raise.
    unfold load_sheet, bind, lift. rewrite E0, (getitem_has _ _ Hed).
    rewrite setitem_coerce.
    rewrite getitem_missing; [done|].
    apply not_true_is_false. intros H. apply has_column_true in H. simpl in H.
    apply set_dtype_names in H as [?|H]; [discriminate|].
    apply has_column_true in H. congruence.
Qed.

(** X3.  A lookup that raises ends the load with its exception: the rows
    before it have been requested, its own request has been sent, and no
    later row is requested.  Nothing is retried and nothing of the sheet is
    shown. *)
Theorem X3_failed_lookup_aborts_load name s e log df0 l1 r l2 ex :
  read_excel name = Ok df0 ->
  has_column df0 "Event Date" = true ->
  has_column df0 "Postal Code" = true ->
  rows df0 = l1 ++ r :: l2 ->
  Forall (fun r => exists p, geocode (cell_at "Postal Code" r) = Ok p) l1 ->
  geocode (cell_at "Postal Code" r) = Raise ex ->
  update_dashboard name s e log =
    (Raise ex, log ++ map request_of l1 ++ [request_of r]).
Proof.
  intros E0 Hed Hpc Hrows HF Hex. apply update_dashboard_load_raise.
  destruct (load_sheet_upto_lookups read_excel requests_get_json py_str py_float
              datetime_in_column column_tz_aware name log df0 E0 Hed Hpc)
    as (k & -> & _).
  rewrite Hrows, map_app. simpl map. unfold bind.
  rewrite (mapM_get_lat_lon_raise _ _ _ log ex); cycle 1.
  { apply Forall_forall. intros pc Hin.
    apply list_elem_of_In, in_map_iff in Hin as (r' & <- & Hr').
    rewrite Forall_forall in HF. apply HF. by apply list_elem_of_In. }
  { exact Hex. }
  rewrite map_app, map_map. simpl. reflexivity.
Qed.

(** *** What the load keeps of the sheet *)

Lemma set_dtype_fst col dt cs :
  (set_dtype col dt cs).*1 = append_new col cs.*1.
Proof.
  unfold append_new. induction cs as [|[c d] cs IH].
  - rewrite bool_decide_eq_false_2; [done|]. apply not_elem_of_nil.
  - cbn [set_dtype]. destruct (String.eqb_spec c col) as [->|Hne].
    + rewrite bool_decide_eq_true_2; [done|]. apply list_elem_of_here.
    + rewrite !fmap_cons, IH. cbn [fst].
      destruct (bool_decide (col ∈ cs.*1)) eqn:E.
      * apply bool_decide_eq_true in E.
        rewrite bool_decide_eq_true_2; [done|]. by apply list_elem_of_further.
      * apply bool_decide_eq_false in E.
        rewrite bool_decide_eq_false_2; [done|].
        intros [?|?]%elem_of_cons; congruence.
Qed.

Lemma append_new_present col names : col ∈ names -> append_new col names = names.
Proof. intros H. unfold append_new. by rewrite bool_decide_eq_true_2. Qed.

(** X4.  Loading keeps the sheet as it is apart from the three columns it
    sets: the rows are the sheet's rows in the sheet's order, every other
    cell and every other column's dtype is unchanged, and the columns are
    the sheet's columns in their order, with Latitude and then Longitude
    added at the end unless the sheet had them already. *)
Theorem X4_load_keeps_the_sheet name log df log' :
  load_sheet name log = (Ok df, log') ->
  exists df0,
    read_excel name = Ok df0 /\
    length (rows df) = length (rows df0) /\
    (columns df).*1 =
      append_new "Longitude" (append_new "Latitude" (columns df0).*1) /\
    (forall col, col <> "Longitude" -> col <> "Latitude" -> col <> "Event Date" ->
                 dtype_of col (columns df) = dtype_of col (columns df0)) /\
    Forall2 (fun r0 r =>
               forall col,
                 col <> "Longitude" -> col <> "Latitude" -> col <> "Event Date" ->
                 cell_at col r = cell_at col r0)
      (rows df0) (rows df).
Proof.
  intros H.
  apply load_sheet_Ok in H as (df0 & pairs & E0 & Hed & _ & HF & Hr & Hc & _ & _).
  exists df0. split; [done|]. split.
  { rewrite Hr, length_zip_with. apply Forall2_length in HF. lia. }
  split.
  { rewrite Hc, !set_dtype_fst. do 2 f_equal.
    apply append_new_present. by apply has_column_true. }
  split.
  { intros col H1 H2 H3. rewrite Hc.
    by rewrite !dtype_of_set_dtype_ne. }
  rewrite Hr. eapply Forall2_zip_with_l; [exact HF|].
  intros r p _ col H1 H2 H3. by apply loaded_row_other.
Qed.

(** X9.  The options offered by the column multi-select are the columns of
    the selected sheet, each once as label and as value, followed by
    Latitude and Longitude when the sheet does not have them; the date range
    does not change them. *)
Theorem X9_column_options name s e log out log' :
  update_dashboard name s e log = (Ok out, log') ->
  exists df0,
    read_excel name = Ok df0 /\
    column_options out =
      map (fun col => (col, col))
        (append_new "Longitude" (append_new "Latitude" (columns df0).*1)).
Proof.
  intros H. apply update_dashboard_Ok in H as (df & El & Er).
  apply render_Ok in Er as (_ & _ & _ & _ & _ & _ & Hopt & _).
  apply load_and_filter_Ok in El as (dfl & Hl & Hcols & _).
  apply load_sheet_Ok in Hl as (df0 & pairs & E0 & Hed & _ & _ & _ & Hc & _ & _).
  exists df0. split; [done|].
  rewrite Hopt, Hcols, Hc, !set_dtype_fst. do 3 f_equal.
  apply append_new_present. by apply has_column_true.
Qed.

(** *** The ends of the date range *)

Lemma date_filter_empty_string s e df :
  s = Some "" \/ e = Some "" -> date_filter s e df = Ok df.
Proof.
  intros [-> | ->].
  - by destruct e.
  - destruct s as [s|]; [|done]. unfold date_filter.
    by rewrite andb_false_r.
Qed.

(** X7.  An end of the range that is the empty string counts as no date:
    the filter is skipped and the whole sheet is rendered, whatever the
    other end holds. *)
Theorem X7_empty_string_is_no_date name s e log :
  s = Some "" \/ e = Some "" ->
  load_and_filter name s e log = load_sheet name log /\
  update_dashboard name s e log =
    bind (load_sheet name) (fun df => lift (render df)) log.
Proof.
  intros Hse.
  assert (E : load_and_filter name s e log = load_sheet name log).
  { unfold load_and_filter, bind.
    destruct (load_sheet name log) as [[df|ex] l]; [|done].
    unfold lift. by rewrite date_filter_empty_string. }
  split; [exact E|].
  unfold update_dashboard. unfold bind at 1. rewrite E. reflexivity.
Qed.

(** X6.  A selected date that cannot be parsed is an error, unlike a date of
    the sheet: the sheet is loaded and geocoded in full, and the callback
    then ends in a ValueError on the start date, or on the end date when the
    start date parses. *)
Theorem X6_unparsable_selected_date name s e log df log' :
  s <> "" -> e <> "" ->
  load_sheet name log = (Ok df, log') ->
  (parse_datetime s = None ->
   update_dashboard name (Some s) (Some e) log = (Raise (ValueError s), log')) /\
  (forall ts, parse_datetime s = Some ts -> parse_datetime e = None ->
   update_dashboard name (Some s) (Some e) log = (Raise (ValueError e), log')).
Proof.
  intros Hs He Hl. apply String.eqb_neq in Hs, He.
  split.
  - intros Ps. unfold update_dashboard, load_and_filter, bind. rewrite Hl.
    unfold lift, date_filter, truthy, to_datetime. by rewrite Hs, He, Ps.
  - intros ts Ps Pe. unfold update_dashboard, load_and_filter, bind. rewrite Hl.
    unfold lift, date_filter, truthy, to_datetime. by rewrite Hs, He, Ps, Pe.
Qed.

Lemma filter_none {A} (p : A -> bool) (l : list A) :
  (forall x, p x = false) -> List.filter p l = [].
Proof.
  intros Hp. induction l as [|x l IH]; simpl; [done|]. by rewrite Hp.
Qed.

Lemma in_range_reversed ts te r : (te < ts)%Z -> in_range ts te r = false.
Proof.
  intros Hlt. unfold in_range. destruct (cell_at "Event Date" r); try done.
  apply andb_false_iff. rewrite !Z.leb_gt. lia.
Qed.

(** X8.  An end date before the start date is not an error: no row is kept,
    and when the callback returns the map has no point, the attrition rate
    is 0 and the attendance card shows the sum of an empty column, which is
    0 for a numeric column. *)
Theorem X8_reversed_range_keeps_nothing name s e ts te log df log' :
  s <> "" -> e <> "" ->
  parse_datetime s = Some ts -> parse_datetime e = Some te ->
  (te < ts)%Z ->
  load_sheet name log = (Ok df, log') ->
  tz_aware s = dates_aware df -> tz_aware e = dates_aware df ->
  load_and_filter name (Some s) (Some e) log =
    (Ok {| columns := columns df; rows := [] |}, log') /\
  (forall out,
      update_dashboard name (Some s) (Some e) log = (Ok out, log') ->
      heatmap_layer out = [] /\
      exists total,
        attendance_row out =
          [ mkCard "🎟️ Total Attendance" (Fmt total);
            mkCard "📉 Attrition Rate" (Fmt2f (Fin 0) "%") ] /\
        series_sum (dtype_at df "Attendance") [] = Ok total /\
        (forall zero,
            zero_of (dtype_at df "Attendance") = Some zero -> total = zero)).
Proof.
  intros Hs He Ps Pe Hlt Hl As Ae.
  assert (E : load_and_filter name (Some s) (Some e) log =
              (Ok {| columns := columns df; rows := [] |}, log')).
  { unfold load_and_filter, bind. rewrite Hl. unfold lift.
    rewrite (date_filter_loaded read_excel requests_get_json py_str py_float
               parse_datetime tz_aware datetime_in_column column_tz_aware name log df log' s e ts te) by done.
    rewrite filter_none; [done|]. intros r. by apply in_range_reversed. }
  split; [exact E|].
  intros out H. apply update_dashboard_Ok in H as (df' & El & Er).
  rewrite E in El. injection El as <-.
  apply render_Ok in Er as (a & n & r & Est & Hrow & Hh & _).
  split; [exact Hh|].
  apply attendance_stats_Ok in Est as (Hcol & Ha & -> & Hr).
  simpl in Ha, Hr. subst r. exists a. split; [exact Hrow|].
  change (dtype_at {| columns := columns df; rows := [] |} "Attendance")
    with (dtype_at df "Attendance") in Ha.
  split; [exact Ha|].
  intros zero Hz. unfold series_sum in Ha.
  destruct (dtype_at df "Attendance"); simpl in Hz, Ha; try discriminate;
    injection Hz as <-; by injection Ha.
Qed.

(** *** When the callback returns *)

Lemma int_sum_from_fits acc l :
  Forall (fun r => fits (Some DInt64) (attendance_of r)) l ->
  exists z, int_sum_from acc (map attendance_of l) = Ok z.
Proof.
  intros HF. revert acc. induction HF as [|r l Hr _ IH]; intros acc; simpl.
  - eauto.
  - destruct (attendance_of r); try done; apply IH.
Qed.

Lemma float_sum_from_fits acc l :
  Forall (fun r => fits (Some DNumeric) (attendance_of r)) l ->
  exists x, float_sum_from acc (map attendance_of l) = Ok x.
Proof.
  intros HF. revert acc. induction HF as [|r l Hr _ IH]; intros acc; simpl.
  - eauto.
  - destruct (attendance_of r); try done; apply IH.
Qed.

Lemma dtype_at_of df col d : dtype_of col (columns df) = Some d -> dtype_at df col = d.
Proof. intros H. unfold dtype_at. by rewrite H. Qed.

Lemma dtype_of_has_column df col d :
  dtype_of col (columns df) = Some d -> has_column df col = true.
Proof.
  intros H. apply has_column_true.
  induction (columns df) as [|[c d'] cs IH]; simpl in *; [discriminate|].
  destruct (String.eqb_spec c col) as [->|_].
  - apply list_elem_of_here.
  - apply list_elem_of_further. auto.
Qed.

Lemma attendance_stats_total df :
  numeric_dtype (dtype_of "Attendance" (columns df)) ->
  Forall (fun r => fits (dtype_of "Attendance" (columns df)) (attendance_of r))
    (rows df) ->
  exists st, attendance_stats df = Ok st.
Proof.
  intros Hdt HF.
  assert (Hsum : exists a,
             series_sum (dtype_at df "Attendance") (map attendance_of (rows df)) = Ok a /\
             (forall o, a <> TObject o)).
  { destruct Hdt as [Hdt|Hdt]; rewrite Hdt in HF;
      rewrite (dtype_at_of _ _ _ Hdt); unfold series_sum.
    - destruct (int_sum_from_fits 0 _ HF) as (z & ->). simpl. eauto.
    - destruct (float_sum_from_fits (Fin 0) _ HF) as (x & ->). simpl. eauto. }
  destruct Hsum as (a & Ha & Hobj).
  assert (Hcol : has_column df "Attendance" = true).
  { destruct Hdt as [Hdt|Hdt]; by eapply dtype_of_has_column. }
  rewrite (attendance_stats_unfold object_sum object_attrition _ Hcol), Ha.
  cbn [rbind].
  destruct (Z.gtb_spec (hand_registrants (rows df)) 0) as [Hn|_]; [|simpl; eauto].
  rewrite attrition_pos by done.
  destruct a; simpl; eauto. by destruct (Hobj o).
Qed.

Lemma series_get_mean_numeric df col :
  numeric_dtype (dtype_of col (columns df)) ->
  series_get (mean_numeric_only df) col =
    Ok (series_mean (map (cell_at col) (rows df))).
Proof.
  unfold mean_numeric_only, numeric_dtype.
  induction (columns df) as [|[c d] cs IH]; simpl; [by intros [|]|].
  destruct (String.eqb_spec c col) as [->|Hne].
  - intros [[= ->]|[= ->]]; simpl; by rewrite String.eqb_refl.
  - intros H. destruct d; simpl; auto;
      destruct (String.eqb_spec c col); congruence || auto.
Qed.

Lemma px_column_has df col :
  has_column df col = true -> px_column df col = Ok (map (cell_at col) (rows df)).
Proof. intros H. unfold px_column. by rewrite (getitem_has _ _ H). Qed.

Lemma In_zip_with {A B C} (f : A -> B -> C) l ps y :
  In y (zip_with f l ps) -> exists x p, In x l /\ y = f x p.
Proof.
  revert ps. induction l as [|x l IH]; intros [|p ps]; simpl; try done.
  intros [<-|Hin]; [eauto|].
  destruct (IH _ Hin) as (x' & p' & ? & ?). eauto.
Qed.

Lemma numeric_has_column df col :
  numeric_dtype (dtype_of col (columns df)) -> has_column df col = true.
Proof. intros [H|H]; by eapply dtype_of_has_column. Qed.

Lemma render_total df :
  complete_sheet df ->
  has_column df "Latitude" = true ->
  has_column df "Longitude" = true ->
  exists out, render df = Ok out.
Proof.
  intros (Hatt & Hnum & Havg & Hpie) Hlat Hlon.
  unfold averaged_columns in Havg. unfold pie_columns in Hpie.
  rewrite !Forall_cons in Havg. destruct Havg as (A1 & A2 & A3 & A4 & A5 & _).
  rewrite !Forall_cons in Hpie. destruct Hpie as (P1 & P2 & P3 & _).
  destruct (attendance_stats_total df Hatt Hnum) as ([[a n] r] & Est).
  unfold render. rewrite Est. cbn [rbind].
  rewrite !series_get_mean_numeric by done. cbn [rbind].
  unfold px_histogram, px_pie.
  rewrite !px_column_has by (done || by apply numeric_has_column).
  cbn [rbind].
  rewrite (getitem_has _ _ Hlat), (getitem_has _ _ Hlon). cbn [rbind].
  eauto.
Qed.

(** X5.  For a sheet that has rows, the two columns the load reads, the
    columns the cards and charts read (attendance numeric and holding numbers
    and blanks, the five averaged columns numeric) and postal codes whose
    lookups all return, the callback returns its outputs, for every date
    range whose selected dates can be parsed and agree with the date column
    on having a time zone; it has then sent one request per row. *)
Theorem X5_callback_returns name s e log df0 :
  read_excel name = Ok df0 ->
  has_column df0 "Event Date" = true ->
  has_column df0 "Postal Code" = true ->
  rows df0 <> [] ->
  Forall (fun r => exists p, geocode (cell_at "Postal Code" r) = Ok p) (rows df0) ->
  complete_sheet df0 ->
  (forall a b, s = Some a -> e = Some b -> a <> "" -> b <> "" ->
               is_Some (parse_datetime a) /\ is_Some (parse_datetime b) /\
               tz_aware a = dates_aware df0 /\ tz_aware b = dates_aware df0) ->
  exists out,
    update_dashboard name s e log = (Ok out, log ++ map request_of (rows df0)).
Proof.
  intros E0 Hed Hpc Hne HF (Hatt & Hnum & Havg & Hpie) Hdates.
  destruct (load_sheet_total read_excel requests_get_json py_str py_float
              datetime_in_column column_tz_aware name log df0 E0 Hed Hpc Hne HF)
    as (df & El).
  pose proof El as Hl.
  apply load_sheet_Ok in Hl as (df0' & pairs & E0' & _ & _ & HF2 & Hr & Hc & _ & _).
  rewrite E0 in E0'. injection E0' as <-.
  destruct (converted_loaded read_excel requests_get_json py_str py_float
              datetime_in_column column_tz_aware _ _ _ _ El) as (_ & _ & df0' & E0' & Haware).
  rewrite E0 in E0'. injection E0' as <-.
  assert (Hdf : exists df',
             date_filter s e df = Ok df' /\ columns df' = columns df /\
             (forall r, In r (rows df') -> In r (rows df))).
  { destruct s as [a|]; [destruct e as [b|] |].
    - destruct (String.eqb_spec a "") as [->|Ha].
      { exists df. by rewrite date_filter_empty_string by auto. }
      destruct (String.eqb_spec b "") as [->|Hb].
      { exists df. by rewrite date_filter_empty_string by auto. }
      destruct (Hdates a b eq_refl eq_refl Ha Hb) as ([ts Ps] & [te Pe] & As & Ae).
      eexists. split.
      + eapply date_filter_loaded;
          [exact El | done | done | exact Ps | exact Pe | congruence | congruence].
      + split; [done|]. simpl. intros r Hin. by apply filter_In in Hin as [? _].
    - exists df. by rewrite date_filter_absent by auto.
    - exists df. by rewrite date_filter_absent by auto. }
  destruct Hdf as (df' & Ef & Hcols & Hsub).
  assert (Hhas : forall col, has_column df' col = true <->
                   col = "Longitude" \/ col = "Latitude" \/ col = "Event Date" \/
                   has_column df0 col = true).
  { intros col. rewrite !has_column_true, Hcols, Hc, !set_dtype_names. tauto. }
  assert (Hdt : forall col,
             col <> "Longitude" -> col <> "Latitude" -> col <> "Event Date" ->
             dtype_of col (columns df') = dtype_of col (columns df0)).
  { intros col H1 H2 H3. by rewrite Hcols, Hc, !dtype_of_set_dtype_ne. }
  destruct (render_total df') as (out & Er).
  { split; [|split; [|split]].
    - by rewrite Hdt.
    - rewrite Hdt by done.
      apply Forall_forall. intros r Hin. apply list_elem_of_In, Hsub in Hin.
      rewrite Hr in Hin. apply In_zip_with in Hin as (r0 & p & Hin0 & ->).
      unfold attendance_of.
      rewrite (loaded_row_other datetime_in_column (date_column df0)) by done.
      rewrite Forall_forall in Hnum. apply (Hnum r0). by apply list_elem_of_In.
    - unfold averaged_columns in *. rewrite !Forall_cons in *.
      destruct Havg as (A1 & A2 & A3 & A4 & A5 & _).
      rewrite !Hdt by done.
      repeat split; (assumption || by constructor).
    - unfold pie_columns in *. rewrite !Forall_cons in *.
      destruct Hpie as (P1 & P2 & P3 & _).
      rewrite !Hhas. repeat split; (tauto || by constructor). }
  { apply Hhas. auto. }
  { apply Hhas. auto. }
  exists out. unfold update_dashboard, load_and_filter, bind. rewrite El.
  unfold lift. by rewrite Ef, Er.
Qed.

(** *** The numbers on the cards *)

(** Every row the callback renders is a row of the sheet as loaded, and the
    columns the load does not set keep their dtype. *)
Lemma rendered_rows_from_sheet name s e log df log' df0 :
  read_excel name = Ok df0 ->
  load_and_filter name s e log = (Ok df, log') ->
  (forall r, In r (rows df) ->
             exists r0 p, In r0 (rows df0) /\ r = loaded_row (date_column df0) r0 p) /\
  (length (rows df) <= length (rows df0))%nat /\
  (forall col, col <> "Longitude" -> col <> "Latitude" -> col <> "Event Date" ->
               dtype_of col (columns df) = dtype_of col (columns df0)).
Proof.
  intros E0 H.
  apply load_and_filter_Ok in H as (dfl & Hl & Hcols & Hrows).
  apply load_sheet_Ok in Hl as (df0' & pairs & E0' & _ & _ & HF & Hr & Hc & _).
  rewrite E0 in E0'. injection E0' as <-.
  split; [|split].
  - intros r Hin.
    assert (Hin' : In r (rows dfl)).
    { destruct Hrows as [<- | (ts & te & Hf)]; [done|].
      rewrite Hf in Hin. by apply filter_In in Hin as [? _]. }
    rewrite Hr in Hin'. by apply In_zip_with in Hin'.
  - assert (Hlen : length (rows dfl) = length (rows df0)).
    { rewrite Hr, length_zip_with. apply Forall2_length in HF. lia. }
    destruct Hrows as [-> | (ts & te & ->)]; [lia|].
    rewrite <- Hlen. apply List.filter_length_le.
  - intros col H1 H2 H3. by rewrite Hcols, Hc, !dtype_of_set_dtype_ne.
Qed.

Lemma hand_total_unit l :
  unit_attendance l ->
  exists t, hand_total l = Fin t /\ 0 <= t /\ t <= inject_Z (hand_registrants l).
Proof.
  intros HF. induction HF as [|r l Hr _ (t & Et & IH0 & IH1)]; simpl.
  - exists 0. split; [done|]. split; apply Qle_refl.
  - destruct (attendance_of r) as [z|q| | | |]; try done; simpl.
    + rewrite Et. simpl. eexists. split; [reflexivity|].
      rewrite inject_Z_plus. change (inject_Z 1) with 1.
      assert (0 <= inject_Z z) by (change 0 with (inject_Z 0); rewrite <- Zle_Qle; lia).
      assert (inject_Z z <= 1) by (change 1 with (inject_Z 1); rewrite <- Zle_Qle; lia).
      split; lra.
    + rewrite Et. simpl. eexists. split; [reflexivity|].
      destruct Hr as [Hq0 Hq1]. rewrite inject_Z_plus.
      change (inject_Z 1) with 1. split; lra.
    + eauto.
Qed.

Lemma hand_int_total_unit l :
  unit_attendance l -> (0 <= hand_int_total l <= hand_registrants l)%Z.
Proof.
  intros HF. induction HF as [|r l Hr _ IH]; simpl; [lia|].
  destruct (attendance_of r); try done; lia.
Qed.

Lemma hand_registrants_length l : (hand_registrants l <= Z.of_nat (length l))%Z.
Proof.
  induction l as [|r l IH]; simpl length; simpl hand_registrants; [lia|].
  destruct (attendance_of r); lia.
Qed.

(** The rate of a shortfall between nobody and everybody. *)
Lemma hand_rate_unit n d :
  (0 <= n)%Z -> 0 <= d -> d <= inject_Z n ->
  exists r, hand_rate n (Fin d) = Fin r /\ 0 <= r /\ r <= 100.
Proof.
  intros Hn Hd0 Hd1. unfold hand_rate.
  destruct (Z.eqb_spec n 0) as [->|Hne].
  - exists 0. split; [done|]. split; [apply Qle_refl | done].
  - simpl. eexists. split; [reflexivity|].
    assert (Hpos : 0 < inject_Z n).
    { change 0 with (inject_Z 0). rewrite <- Zlt_Qlt. lia. }
    assert (Hq0 : 0 <= d / inject_Z n).
    { apply Qle_shift_div_l; [done|]. lra. }
    assert (Hq1 : d / inject_Z n <= 1).
    { apply Qle_shift_div_r; [done|]. lra. }
    split; lra.
Qed.

Lemma same_number_Fin a q :
  same_number a (Fin q) -> exists q', a = Fin q' /\ q' == q.
Proof. destruct a; simpl; [eauto | done | done]. Qed.

Lemma hand_attrition_unit l :
  unit_attendance l ->
  exists r, hand_attrition l = Fin r /\ 0 <= r /\ r <= 100.
Proof.
  intros HF. destruct (hand_total_unit l HF) as (t & Et & H0 & H1).
  pose proof (hand_registrants_nonneg l) as Hnn.
  unfold hand_attrition. rewrite Et. simpl.
  apply hand_rate_unit; [done | lra | lra].
Qed.

(** X10.  When the attendance column of the sheet is numeric, every cell of
    it blank or a number from 0 to 1, and the sheet has fewer than 2^63
    rows, the total shown is a number between 0 and the number of
    registrants among the rows rendered, and the attrition rate shown is
    between 0 and 100, for every date range.  Nothing else bounds the rate:
    it is computed from the cells as they are. *)
Theorem X10_attrition_between_0_and_100 name s e log df0 out log' :
  read_excel name = Ok df0 ->
  numeric_dtype (dtype_of "Attendance" (columns df0)) ->
  unit_attendance (rows df0) ->
  (Z.of_nat (length (rows df0)) < 2 ^ 63)%Z ->
  update_dashboard name s e log = (Ok out, log') ->
  exists df total rate t r,
    load_and_filter name s e log = (Ok df, log') /\
    attendance_row out =
      [ mkCard "🎟️ Total Attendance" (Fmt total);
        mkCard "📉 Attrition Rate" (Fmt2f rate "%") ] /\
    total_number total = Some t /\ rate = Fin r /\
    0 <= t /\ t <= inject_Z (hand_registrants (rows df)) /\
    0 <= r /\ r <= 100.
Proof.
  intros E0 Hdt Hunit Hlen H.
  apply update_dashboard_Ok in H as (df & El & Er).
  apply render_Ok in Er as (a & n & r & Est & Hrow & _).
  destruct (rendered_rows_from_sheet _ _ _ _ _ _ _ E0 El) as (Hfrom & Hlen' & Hdts).
  assert (Hu : unit_attendance (rows df)).
  { apply Forall_forall. intros row Hin. apply list_elem_of_In in Hin.
    destruct (Hfrom row Hin) as (r0 & p & Hin0 & ->).
    unfold attendance_of.
    rewrite (loaded_row_other datetime_in_column (date_column df0)) by done.
    unfold unit_attendance in Hunit. rewrite Forall_forall in Hunit.
    apply (Hunit r0). by apply list_elem_of_In. }
  rewrite <- (Hdts "Attendance") in Hdt by done.
  apply attendance_stats_by_hand in Est as (-> & Hfig).
  pose proof (hand_registrants_nonneg (rows df)) as Hnn.
  pose proof (hand_registrants_length (rows df)) as Hrl.
  destruct (hand_total_unit _ Hu) as (t & Et & Ht0 & Ht1).
  destruct (hand_attrition_unit _ Hu) as (q & Eq & Hq0 & Hq1).
  exists df, a, r.
  destruct Hdt as [Hdt|Hdt]; rewrite (dtype_at_of _ _ _ Hdt) in Hfig.
  - destruct Hfig as (_ & _ & Hfit). cbn zeta in Hfit.
    pose proof (hand_int_total_unit _ Hu) as Hi.
    destruct Hfit as (-> & Hsame & Hrate).
    { unfold int64. lia. }
    { unfold int64. lia. }
    rewrite Eq in Hrate. apply same_number_Fin in Hrate as (r' & -> & Hr').
    exists (inject_Z (hand_int_total (rows df))), r'.
    do 4 (split; [done|]).
    split; [change 0 with (inject_Z 0); rewrite <- Zle_Qle; lia|].
    split; [rewrite <- Zle_Qle; lia|].
    rewrite Hr'. done.
  - destruct Hfig as (x & -> & Hx & Hrate).
    rewrite Et in Hx. apply same_number_Fin in Hx as (t' & -> & Ht').
    rewrite Eq in Hrate. apply same_number_Fin in Hrate as (r' & -> & Hr').
    exists t', r'. do 4 (split; [done|]).
    rewrite Ht', Hr'. done.
Qed.

Lemma numbers_fold col l acc :
  same_number (fold_left fadd (numbers (map (cell_at col) l)) acc)
    (fadd acc (hand_sum_of col l)).
Proof.
  revert acc. induction l as [|r l IH]; intros acc; simpl.
  - destruct acc; simpl; try done. ring.
  - unfold numbers in *. simpl.
    destruct (cell_at col r); simpl;
      try apply IH;
      (eapply same_number_trans; [apply IH | apply fadd_assoc]).
Qed.

Lemma numbers_length col l :
  Z.of_nat (length (numbers (map (cell_at col) l))) = hand_count_of col l.
Proof.
  induction l as [|r l IH]; simpl; [done|].
  unfold numbers in *. simpl. destruct (cell_at col r); simpl; lia.
Qed.

Lemma series_mean_by_hand col l :
  same_number (series_mean (map (cell_at col) l)) (hand_mean col l).
Proof.
  unfold series_mean, hand_mean.
  pose proof (numbers_length col l) as Hlen.
  pose proof (numbers_fold col l (Fin 0)) as Hsum.
  destruct (numbers (map (cell_at col) l)) as [|q qs] eqn:E.
  - simpl in Hlen. by rewrite <- Hlen.
  - rewrite <- Hlen.
    destruct (Z.eqb_spec (Z.of_nat (length (q :: qs))) 0) as [Hz|_];
      [simpl in Hz; lia|].
    apply fdiv_same.
    eapply same_number_trans; [exact Hsum | apply fadd_0_l].
Qed.

Lemma series_get_mean_Ok df col v :
  series_get (mean_numeric_only df) col = Ok v ->
  v = series_mean (map (cell_at col) (rows df)).
Proof.
  unfold mean_numeric_only.
  induction (columns df) as [|[c d] cs IH]; simpl; [discriminate|].
  destruct d; simpl; auto;
    (destruct (String.eqb_spec c col) as [->|_]; [by intros [= <-] | auto]).
Qed.

(** X11.  Each of the five average cards shows the mean of its own survey
    column over the loaded and filtered rows: the sum of the column's
    numbers over how many there are, and nan when the column has none. *)
Theorem X11_average_cards name s e log out log' :
  update_dashboard name s e log = (Ok out, log') ->
  exists df v1 v2 v3 v4 v5,
    load_and_filter name s e log = (Ok df, log') /\
    averages_row out =
      [ mkCard "📊 Avg Age" (Fmt2f v1 "");
        mkCard "🤝 Avg Neighbors Met" (Fmt2f v2 "");
        mkCard "🧑‍🤝‍🧑 Avg Knowledge" (Fmt2f v3 "");
        mkCard "⭐ Avg Rating" (Fmt2f v4 "");
        mkCard "📈 Net Promoter" (Fmt2f v5 "") ] /\
    same_number v1 (hand_mean "Age" (rows df)) /\
    same_number v2 (hand_mean "How many new neighbours met?" (rows df)) /\
    same_number v3
      (hand_mean "How much better do you know your neighbours?" (rows df)) /\
    same_number v4 (hand_mean "Rating of the whole event." (rows df)) /\
    same_number v5
      (hand_mean "How likely are you to promote this event to your friend?"
         (rows df)).
Proof.
  intros H. apply update_dashboard_Ok in H as (df & El & Er).
  unfold render in Er.
  destruct (attendance_stats df) as [[[a n] r]|] eqn:Est; [|discriminate].
  cbn [rbind] in Er.
  destruct (series_get _ "Age") as [v1|] eqn:E1; [|discriminate].
  cbn [rbind] in Er.
  destruct (series_get _ "How many new neighbours met?") as [v2|] eqn:E2;
    [|discriminate].
  cbn [rbind] in Er.
  destruct (series_get _ "How much better do you know your neighbours?")
    as [v3|] eqn:E3; [|discriminate].
  cbn [rbind] in Er.
  destruct (series_get _ "Rating of the whole event.") as [v4|] eqn:E4;
    [|discriminate].
  cbn [rbind] in Er.
  destruct (series_get _ "How likely are you to promote this event to your friend?")
    as [v5|] eqn:E5; [|discriminate].
  cbn [rbind] in Er.
  inv_res Er. injection Er as <-.
  exists df, v1, v2, v3, v4, v5. split; [done|]. split; [done|].
  apply series_get_mean_Ok in E1, E2, E3, E4, E5. subst.
  repeat split; apply series_mean_by_hand.
Qed.

(** *** The first display *)

(** X12.  Before the user touches the page the selector holds the first
    worksheet, which is one of its options, and no date: the callback on
    that page renders the whole first sheet.  A workbook without worksheets
    has no first one, and the layout fails with an IndexError. *)
Theorem X12_first_display :
  initial_page [] = Raise IndexError /\
  (forall sheet rest,
      exists page,
        initial_page (sheet :: rest) = Ok page /\
        In (sheet_selector_value page, sheet_selector_value page)
          (sheet_options (sheet :: rest)) /\
        forall log,
          callback page log =
            bind (load_sheet sheet) (fun df => lift (render df)) log).
Proof.
  split; [done|]. intros sheet rest. eexists. split; [reflexivity|].
  split; [by left|].
  intros log. unfold callback, update_dashboard, load_and_filter. simpl.
  unfold bind. destruct (load_sheet sheet log) as [[df|ex] l]; reflexivity.
Qed.

End Behaviour.

(** ** The further statements on the fixtures *)

Lemma X1_witness :
  Fixture.load_sheet "Blank" [search_url "560123"] =
    (Raise (ValueError "not enough values to unpack (expected 2, got 0)"),
     [search_url "560123"]) /\
  (forall s e,
      Fixture.update_dashboard "Blank" s e [search_url "560123"] =
        (Raise (ValueError "not enough values to unpack (expected 2, got 0)"),
         [search_url "560123"])).
Proof.
  apply (X1_sheet_without_rows Fixture.read_excel Fixture.requests_get_json
           Fixture.py_str Fixture.py_float Fixture.parse_datetime Fixture.tz_aware
           Fixture.datetime_in_column Fixture.column_tz_aware Fixture.object_sum
           Fixture.object_attrition "Blank" [search_url "560123"]
           {| columns := Fixture.survey_columns; rows := [] |});
    reflexivity.
Defined.

Lemma X2_witness :
  update_dashboard Edge.read_excel Fixture.requests_get_json
             Fixture.py_str Fixture.py_float Fixture.parse_datetime Fixture.tz_aware
             Fixture.datetime_in_column Fixture.column_tz_aware Fixture.object_sum
             Fixture.object_attrition
    "NoDate" None None [] = (Raise (KeyError "Event Date"), []) /\
  update_dashboard Edge.read_excel Fixture.requests_get_json
             Fixture.py_str Fixture.py_float Fixture.parse_datetime Fixture.tz_aware
             Fixture.datetime_in_column Fixture.column_tz_aware Fixture.object_sum
             Fixture.object_attrition
    "NoPostal" (Some "2024-01-01") (Some "2024-01-31") []
  = (Raise (KeyError "Postal Code"), []).
Proof.
  split.
  - apply (X2_load_needs_date_and_postal_code Edge.read_excel Fixture.requests_get_json
             Fixture.py_str Fixture.py_float Fixture.parse_datetime Fixture.tz_aware
             Fixture.datetime_in_column Fixture.column_tz_aware Fixture.object_sum
             Fixture.object_attrition "NoDate" None None []
             (Fixture.drop_column "Event Date" Fixture.survey));
      reflexivity.
  - apply (X2_load_needs_date_and_postal_code Edge.read_excel Fixture.requests_get_json
             Fixture.py_str Fixture.py_float Fixture.parse_datetime Fixture.tz_aware
             Fixture.datetime_in_column Fixture.column_tz_aware Fixture.object_sum
             Fixture.object_attrition "NoPostal"
             (Some "2024-01-01") (Some "2024-01-31") []
             (Fixture.drop_column "Postal Code" Fixture.survey));
      reflexivity.
Defined.

Lemma X3_witness :
  update_dashboard Fixture.read_excel Edge.requests_get_json
           Fixture.py_str Fixture.py_float Fixture.parse_datetime Fixture.tz_aware
           Fixture.datetime_in_column Fixture.column_tz_aware Fixture.object_sum
           Fixture.object_attrition
    "Survey" None None []
  = (Raise (RequestException "timeout"),
     [] ++ map (request_of Fixture.py_str) [Fixture.row1]
        ++ [request_of Fixture.py_str Fixture.row2]).
Proof.
  apply (X3_failed_lookup_aborts_load Fixture.read_excel Edge.requests_get_json
           Fixture.py_str Fixture.py_float Fixture.parse_datetime Fixture.tz_aware
           Fixture.datetime_in_column Fixture.column_tz_aware Fixture.object_sum
           Fixture.object_attrition "Survey" None None [] Fixture.survey
           [Fixture.row1] Fixture.row2 [Fixture.row3; Fixture.row4]).
  - reflexivity.
  - vm_compute. reflexivity.
  - vm_compute. reflexivity.
  - reflexivity.
  - constructor; [eexists; vm_compute; reflexivity | constructor].
  - vm_compute. reflexivity.
Defined.

Example failed_lookup_log :
  (update_dashboard Fixture.read_excel Edge.requests_get_json
           Fixture.py_str Fixture.py_float Fixture.parse_datetime Fixture.tz_aware
           Fixture.datetime_in_column Fixture.column_tz_aware Fixture.object_sum
           Fixture.object_attrition
     "Survey" None None []).2
  = [search_url "560123"; search_url "999999"].
Proof. vm_compute. reflexivity. Qed.

Lemma X4_witness :
  exists df0,
    Fixture.read_excel "Survey" = Ok df0 /\
    length (rows Fixture.loaded) = length (rows df0) /\
    (columns Fixture.loaded).*1 =
      append_new "Longitude" (append_new "Latitude" (columns df0).*1) /\
    (forall col, col <> "Longitude" -> col <> "Latitude" -> col <> "Event Date" ->
                 dtype_of col (columns Fixture.loaded) = dtype_of col (columns df0)) /\
    Forall2 (fun r0 r =>
               forall col,
                 col <> "Longitude" -> col <> "Latitude" -> col <> "Event Date" ->
                 cell_at col r = cell_at col r0)
      (rows df0) (rows Fixture.loaded).
Proof.
  apply (X4_load_keeps_the_sheet Fixture.read_excel Fixture.requests_get_json
           Fixture.py_str Fixture.py_float Fixture.datetime_in_column
           Fixture.column_tz_aware "Survey" [] Fixture.loaded Fixture.all_log).
  vm_compute. reflexivity.
Defined.

Example survey_columns_after_load :
  (columns Fixture.loaded).*1 =
    (Fixture.survey_columns.*1 ++ ["Latitude"; "Longitude"])%list.
Proof. vm_compute. reflexivity. Qed.

Lemma survey_is_complete : complete_sheet Fixture.survey.
Proof.
  split; [right; vm_compute; reflexivity|]. split; [|split].
  - unfold Fixture.survey. simpl rows.
    repeat (constructor; [vm_compute; exact I|]). constructor.
  - unfold averaged_columns.
    repeat (constructor; [right; vm_compute; reflexivity|]). constructor.
  - unfold pie_columns.
    repeat (constructor; [vm_compute; reflexivity|]). constructor.
Defined.

Lemma X5_witness :
  exists out,
    Fixture.update_dashboard "Survey" (Some "2024-01-01") (Some "2024-01-31") []
    = (Ok out, [] ++ map (request_of Fixture.py_str) (rows Fixture.survey)).
Proof.
  apply (X5_callback_returns Fixture.read_excel Fixture.requests_get_json
           Fixture.py_str Fixture.py_float Fixture.parse_datetime Fixture.tz_aware
           Fixture.datetime_in_column Fixture.column_tz_aware Fixture.object_sum
           Fixture.object_attrition "Survey" (Some "2024-01-01")
           (Some "2024-01-31") [] Fixture.survey).
  - reflexivity.
  - vm_compute. reflexivity.
  - vm_compute. reflexivity.
  - discriminate.
  - unfold Fixture.survey. simpl rows.
    repeat (constructor; [eexists; vm_compute; reflexivity|]). constructor.
  - exact survey_is_complete.
  - intros a b [= <-] [= <-] _ _.
    split; [eexists; vm_compute; reflexivity|].
    split; [eexists; vm_compute; reflexivity|].
    split; vm_compute; reflexivity.
Defined.

Lemma X6_witness :
  Fixture.update_dashboard "Survey" (Some "yesterday") (Some "2024-01-31") []
    = (Raise (ValueError "yesterday"), Fixture.all_log) /\
  Fixture.update_dashboard "Survey" (Some "2024-01-01") (Some "tomorrow") []
    = (Raise (ValueError "tomorrow"), Fixture.all_log).
Proof.
  split.
  - apply (X6_unparsable_selected_date Fixture.read_excel Fixture.requests_get_json
           Fixture.py_str Fixture.py_float Fixture.parse_datetime Fixture.tz_aware
           Fixture.datetime_in_column Fixture.column_tz_aware Fixture.object_sum
           Fixture.object_attrition "Survey" "yesterday" "2024-01-31" []
             Fixture.loaded Fixture.all_log).
    + discriminate.
    + discriminate.
    + vm_compute. reflexivity.
    + reflexivity.
  - apply (proj2 (X6_unparsable_selected_date Fixture.read_excel Fixture.requests_get_json
           Fixture.py_str Fixture.py_float Fixture.parse_datetime Fixture.tz_aware
           Fixture.datetime_in_column Fixture.column_tz_aware Fixture.object_sum
           Fixture.object_attrition "Survey"
                    "2024-01-01" "tomorrow" [] Fixture.loaded Fixture.all_log
                    ltac:(discriminate) ltac:(discriminate)
                    ltac:(vm_compute; reflexivity)) Fixture.jan01);
      reflexivity.
Defined.

Lemma X7_witness :
  Fixture.load_and_filter "Survey" (Some "") (Some "2024-01-31") []
    = Fixture.load_sheet "Survey" [] /\
  Fixture.update_dashboard "Survey" (Some "") (Some "2024-01-31") []
    = bind (Fixture.load_sheet "Survey")
        (fun df => lift (render Fixture.object_sum Fixture.object_attrition df)) [].
Proof.
  apply (X7_empty_string_is_no_date Fixture.read_excel Fixture.requests_get_json
           Fixture.py_str Fixture.py_float Fixture.parse_datetime Fixture.tz_aware
           Fixture.datetime_in_column Fixture.column_tz_aware Fixture.object_sum
           Fixture.object_attrition "Survey" (Some "") (Some "2024-01-31") []).
  left. reflexivity.
Defined.

Lemma X8_witness :
  Fixture.load_and_filter "Survey" (Some "2024-01-31") (Some "2024-01-01") []
    = (Ok {| columns := columns Fixture.loaded; rows := [] |}, Fixture.all_log) /\
  (forall out,
      Fixture.update_dashboard "Survey" (Some "2024-01-31") (Some "2024-01-01") []
        = (Ok out, Fixture.all_log) ->
      heatmap_layer out = [] /\
      exists total,
        attendance_row out =
          [ mkCard "🎟️ Total Attendance" (Fmt total);
            mkCard "📉 Attrition Rate" (Fmt2f (Fin 0) "%") ] /\
        series_sum Fixture.object_sum (dtype_at Fixture.loaded "Attendance") []
          = Ok total /\
        (forall zero,
            zero_of (dtype_at Fixture.loaded "Attendance") = Some zero ->
            total = zero)).
Proof.
  apply (X8_reversed_range_keeps_nothing Fixture.read_excel Fixture.requests_get_json
           Fixture.py_str Fixture.py_float Fixture.parse_datetime Fixture.tz_aware
           Fixture.datetime_in_column Fixture.column_tz_aware Fixture.object_sum
           Fixture.object_attrition "Survey"
           "2024-01-31" "2024-01-01" Fixture.jan31 Fixture.jan01 []
           Fixture.loaded Fixture.all_log).
  - discriminate.
  - discriminate.
  - reflexivity.
  - reflexivity.
  - reflexivity.
  - vm_compute. reflexivity.
  - reflexivity.
  - reflexivity.
Defined.

Lemma X9_witness :
  exists df0,
    Fixture.read_excel "Survey" = Ok df0 /\
    column_options Fixture.january_out =
      map (fun col => (col, col))
        (append_new "Longitude" (append_new "Latitude" (columns df0).*1)).
Proof.
  apply (X9_column_options Fixture.read_excel Fixture.requests_get_json
           Fixture.py_str Fixture.py_float Fixture.parse_datetime Fixture.tz_aware
           Fixture.datetime_in_column Fixture.column_tz_aware Fixture.object_sum
           Fixture.object_attrition "Survey" (Some "2024-01-01")
           (Some "2024-01-31") [] Fixture.january_out Fixture.january_log).
  vm_compute. reflexivity.
Defined.

Lemma survey_unit_attendance : unit_attendance (rows Fixture.survey).
Proof.
  unfold unit_attendance, Fixture.survey. simpl rows.
  repeat (constructor; [vm_compute; try (split; discriminate); exact I|]).
  constructor.
Defined.

Lemma X10_witness :
  exists df total rate t r,
    Fixture.load_and_filter "Survey" None None [] = (Ok df, Fixture.all_log) /\
    attendance_row Fixture.all_out =
      [ mkCard "🎟️ Total Attendance" (Fmt total);
        mkCard "📉 Attrition Rate" (Fmt2f rate "%") ] /\
    total_number total = Some t /\ rate = Fin r /\
    0 <= t /\ t <= inject_Z (hand_registrants (rows df)) /\
    0 <= r /\ r <= 100.
Proof.
  apply (X10_attrition_between_0_and_100 Fixture.read_excel Fixture.requests_get_json
           Fixture.py_str Fixture.py_float Fixture.parse_datetime Fixture.tz_aware
           Fixture.datetime_in_column Fixture.column_tz_aware Fixture.object_sum
           Fixture.object_attrition "Survey" None None []
           Fixture.survey Fixture.all_out Fixture.all_log).
  - reflexivity.
  - right. vm_compute. reflexivity.
  - exact survey_unit_attendance.
  - vm_compute. reflexivity.
  - vm_compute. reflexivity.
Defined.

Lemma X11_witness :
  exists df v1 v2 v3 v4 v5,
    Fixture.load_and_filter "Survey" (Some "2024-01-01") (Some "2024-01-31") []
      = (Ok df, Fixture.january_log) /\
    averages_row Fixture.january_out =
      [ mkCard "📊 Avg Age" (Fmt2f v1 "");
        mkCard "🤝 Avg Neighbors Met" (Fmt2f v2 "");
        mkCard "🧑‍🤝‍🧑 Avg Knowledge" (Fmt2f v3 "");
        mkCard "⭐ Avg Rating" (Fmt2f v4 "");
        mkCard "📈 Net Promoter" (Fmt2f v5 "") ] /\
    same_number v1 (hand_mean "Age" (rows df)) /\
    same_number v2 (hand_mean "How many new neighbours met?" (rows df)) /\
    same_number v3
      (hand_mean "How much better do you know your neighbours?" (rows df)) /\
    same_number v4 (hand_mean "Rating of the whole event." (rows df)) /\
    same_number v5
      (hand_mean "How likely are you to promote this event to your friend?"
         (rows df)).
Proof.
  apply (X11_average_cards Fixture.read_excel Fixture.requests_get_json
           Fixture.py_str Fixture.py_float Fixture.parse_datetime Fixture.tz_aware
           Fixture.datetime_in_column Fixture.column_tz_aware Fixture.object_sum
           Fixture.object_attrition "Survey" (Some "2024-01-01")
           (Some "2024-01-31") [] Fixture.january_out Fixture.january_log).
  vm_compute. reflexivity.
Defined.

Example january_mean_age :
  same_number (hand_mean "Age" [Fixture.row1; Fixture.row2]) (Fin 35).
Proof. vm_compute. reflexivity. Qed.

Example nobody_means_are_nan :
  averages_row Fixture.nobody_out =
    [ mkCard "📊 Avg Age" (Fmt2f NaN "");
      mkCard "🤝 Avg Neighbors Met" (Fmt2f NaN "");
      mkCard "🧑‍🤝‍🧑 Avg Knowledge" (Fmt2f NaN "");
      mkCard "⭐ Avg Rating" (Fmt2f NaN "");
      mkCard "📈 Net Promoter" (Fmt2f NaN "") ].
Proof. vm_compute. reflexivity. Qed.
